(** * init_repo.py: placeholder substitution and repository bootstrap

    A shallow embedding of [src/init_repo.py].

    Conventions of the embedding.
    - A Python [str] is a Rocq [string], the text in its UTF-8 encoding;
      [str.lower] and [str.strip] act on the ASCII range only.
    - A Python [dict] iterated with [.items()] is an association list in
      insertion order.
    - Exceptions are an explicit result type ([res]).
    - The file system and the [git] executable are the environment of the
      program. The executable is a function of the command line ([spawn]).
      The file system is an interface ([FileSystem]), with a small
      reference instance ([RefFS]) used to run the model on concrete trees.
    - [rglob fs] lists the entries of the tree as it is when a loop
      starts. Python's [path.rglob("*")] is a lazy generator: a directory
      that the second loop has renamed is walked under its new name. What
      is stated of the second loop is therefore stated of every call it
      makes, of its body, or of a loop over an arbitrary list of visited
      children, never of the entries listed at its start.
    - Every call the program makes on the file system is recorded in a log,
      so that statements about calls ("no rename call occurs") can be
      made. *)

From Stdlib Require Import String Ascii List Bool Arith ZArith Lia.
From Stdlib Require Import Permutation.
Import ListNotations.
Open Scope list_scope.
Open Scope string_scope.

(** ** Python strings *)

Module PyStr.

(** [s.startswith(prefix)] *)
Definition startswith (pre s : string) : bool := String.prefix pre s.

(** Drop the first [n] characters. *)
Fixpoint drop (n : nat) (s : string) : string :=
  match n, s with
  | O, _ => s
  | S _, EmptyString => EmptyString
  | S k, String _ s' => drop k s'
  end.

(** [s.replace(old, new)] for a non-empty [old]: scan left to right; at an
    occurrence of [old] emit [new] and resume after the occurrence.
    [skip] counts the characters of a matched occurrence still to be
    passed over. *)
Fixpoint replace_from (skip : nat) (old new s : string) : string :=
  match s with
  | EmptyString => EmptyString
  | String c s' =>
      match skip with
      | S k => replace_from k old new s'
      | O =>
          if startswith old s
          then new ++ replace_from (String.length old - 1) old new s'
          else String c (replace_from 0 old new s')
      end
  end.

(** [s.replace("", new)]: [new] goes before every character and at the end. *)
Fixpoint intersperse (new s : string) : string :=
  match s with
  | EmptyString => new
  | String c s' => new ++ String c (intersperse new s')
  end.

(** [s.replace(old, new)] *)
Definition replace (old new s : string) : string :=
  match old with
  | EmptyString => intersperse new s
  | String _ _ => replace_from 0 old new s
  end.

(** [old in s]: [old] occurs in [s] as a substring. *)
Fixpoint contains (old s : string) : bool :=
  startswith old s ||
  match s with
  | EmptyString => false
  | String _ s' => contains old s'
  end.

(** [c in s] for a single character. *)
Fixpoint has_char (c : ascii) (s : string) : bool :=
  match s with
  | EmptyString => false
  | String d s' => Ascii.eqb c d || has_char c s'
  end.

Definition is_upper (c : ascii) : bool :=
  let n := nat_of_ascii c in (Nat.leb 65 n && Nat.leb n 90)%bool.

Definition lower_char (c : ascii) : ascii :=
  if is_upper c then ascii_of_nat (nat_of_ascii c + 32) else c.

(** [s.isascii()] *)
Fixpoint is_ascii (s : string) : bool :=
  match s with
  | EmptyString => true
  | String c s' => (Nat.ltb (nat_of_ascii c) 128 && is_ascii s')%bool
  end.

(** [s.lower()] *)
Fixpoint lower (s : string) : string :=
  match s with
  | EmptyString => EmptyString
  | String c s' => String (lower_char c) (lower s')
  end.

(** [c.isspace()] on the ASCII range: TAB, LF, VT, FF, CR, FS, GS, RS, US
    and the space. *)
Definition isspace (c : ascii) : bool :=
  let n := nat_of_ascii c in
  ((Nat.leb 9 n && Nat.leb n 13) || (Nat.leb 28 n && Nat.leb n 32))%bool.

Fixpoint lstrip (s : string) : string :=
  match s with
  | EmptyString => EmptyString
  | String c s' => if isspace c then lstrip s' else s
  end.

Fixpoint rstrip (s : string) : string :=
  match s with
  | EmptyString => EmptyString
  | String c s' =>
      match rstrip s' with
      | EmptyString => if isspace c then EmptyString else String c EmptyString
      | r => String c r
      end
  end.

(** [s.strip()] *)
Definition strip (s : string) : string := rstrip (lstrip s).

End PyStr.

(** ** Placeholder substitution *)

(** [dict[str, str]] in insertion order. *)
Definition ProjectInfo : Type := list (string * string).

(** [f"{{{placeholder}}}"] *)
Definition token (placeholder : string) : string := "{" ++ placeholder ++ "}".

(** [update_placeholders]: the loop over [project_info.items()], each
    iteration rebinding [string]. *)
Fixpoint update_placeholders (string : string) (project_info : ProjectInfo)
  : String.string :=
  match project_info with
  | [] => string
  | (placeholder, value) :: rest =>
      update_placeholders (PyStr.replace (token placeholder) value string) rest
  end.

(** ** Paths ([pathlib]) *)

Module PyPath.

(** [Path.name]: the final component of the path. *)
Fixpoint name (p : string) : string :=
  match p with
  | EmptyString => EmptyString
  | String c p' =>
      if PyStr.has_char "/" p' then name p'
      else if Ascii.eqb c "/" then p' else p
  end.

(** [s.rfind(c)] for a single character. *)
Fixpoint rfind (c : ascii) (s : string) : option nat :=
  match s with
  | EmptyString => None
  | String d s' =>
      match rfind c s' with
      | Some i => Some (S i)
      | None => if Ascii.eqb c d then Some 0 else None
      end
  end.

(** [Path.suffix]: [name[i:]] for [i = name.rfind('.')] when
    [0 < i < len(name) - 1], the empty string otherwise. *)
Definition suffix (p : string) : string :=
  let name := name p in
  match rfind "." name with
  | Some i =>
      if (Nat.ltb 0 i && Nat.ltb i (String.length name - 1))%bool
      then PyStr.drop i name
      else ""
  | None => ""
  end.

End PyPath.

(** ** Values, exceptions *)

(** The two kinds of value compared in [init_repo]: a [str] and a [Path]. *)
Inductive pyval : Type :=
| VStr (s : string)
| VPath (p : string).

(** [a == b]: [str.__eq__] and [PurePath.__eq__] both answer
    [NotImplemented] for an operand of the other type, and the comparison
    falls back to identity, which two distinct objects fail. *)
Definition py_eq (a b : pyval) : bool :=
  match a, b with
  | VStr x, VStr y => String.eqb x y
  | VPath x, VPath y => String.eqb x y
  | _, _ => false
  end.

(** [a != b] *)
Definition py_ne (a b : pyval) : bool := negb (py_eq a b).

Inductive exn : Type :=
| CalledProcessError (returncode : Z)
| FileNotFoundError
| IsADirectoryError
| UnicodeDecodeError
| KeyError
| OSError.

Inductive res (A : Type) : Type :=
| Ok (a : A)
| Raise (e : exn).

Arguments Ok {A} a.
Arguments Raise {A} e.

(** [if_none_else] *)
Definition if_none_else {A : Type} (a : option A) (b : A) : A :=
  match a with
  | None => b
  | Some a => a
  end.

(** ** The [git] executable ([subprocess.run]) *)

Record CompletedProcess : Type := {
  returncode : Z;
  stdout : string  (* bytes *)
}.

(** The environment of one run: the working directory, the path of the
    script ([__file__]) and what a command line does when executed
    ([None]: the executable cannot be started). *)
Record Env : Type := {
  cwd : string;
  script : string;
  spawn : list string -> option CompletedProcess
}.

(** [subprocess.run(args, check=..., capture_output=True)] *)
Definition run (env : Env) (args : list string) (check : bool)
  : res CompletedProcess :=
  match spawn env args with
  | None => Raise FileNotFoundError
  | Some process =>
      if (check && negb (Z.eqb (returncode process) 0))%bool
      then Raise (CalledProcessError (returncode process))
      else Ok process
  end.

(** Well-formedness of a UTF-8 byte sequence: [need] continuation bytes are
    still expected, the next one within [lo..hi]. *)
Fixpoint utf8_valid (need lo hi : nat) (b : string) : bool :=
  match b with
  | EmptyString => Nat.eqb need 0
  | String c b' =>
      let n := nat_of_ascii c in
      match need with
      | S k => (Nat.leb lo n && Nat.leb n hi && utf8_valid k 128 191 b')%bool
      | O =>
          if Nat.leb n 127 then utf8_valid 0 128 191 b'
          else if (Nat.leb 194 n && Nat.leb n 223)%bool
               then utf8_valid 1 128 191 b'
          else if Nat.eqb n 224 then utf8_valid 2 160 191 b'
          else if ((Nat.leb 225 n && Nat.leb n 236)
                   || (Nat.leb 238 n && Nat.leb n 239))%bool
               then utf8_valid 2 128 191 b'
          else if Nat.eqb n 237 then utf8_valid 2 128 159 b'
          else if Nat.eqb n 240 then utf8_valid 3 144 191 b'
          else if (Nat.leb 241 n && Nat.leb n 243)%bool
               then utf8_valid 3 128 191 b'
          else if Nat.eqb n 244 then utf8_valid 3 128 143 b'
          else false
      end
  end.

(** [b.decode("utf8", errors="strict")] *)
Definition decode_utf8 (b : string) : res string :=
  if utf8_valid 0 128 191 b then Ok b else Raise UnicodeDecodeError.

(** [param_from_git] *)
Definition param_from_git (env : Env) (key : string) : res (option string) :=
  match run env ["git"; "config"; "--global"; key] true with
  | Raise e => Raise e
  | Ok process =>
      if Z.eqb (returncode process) 0
      then match decode_utf8 (stdout process) with
           | Ok text => Ok (Some (PyStr.strip text))
           | Raise e => Raise e
           end
      else Ok None
  end.

(** ** Dictionaries *)

(** [d[key]] *)
Fixpoint dict_get (d : ProjectInfo) (key : string) : res string :=
  match d with
  | [] => Raise KeyError
  | (k, v) :: d' => if String.eqb k key then Ok v else dict_get d' key
  end.

(** [d[key] = value]: an existing key keeps its position, a new one goes
    last. *)
Fixpoint dict_set (d : ProjectInfo) (key value : string) : ProjectInfo :=
  match d with
  | [] => [(key, value)]
  | (k, v) :: d' =>
      if String.eqb k key then (k, value) :: d'
      else (k, v) :: dict_set d' key value
  end.

(** ** Parameter resolution (first part of [init_repo]) *)

(** The two names: [project_info["project_name"]], then
    [project_info["package_name"]] from it. *)
Definition resolve_names (env : Env)
  (project_name package_name : option string) : res ProjectInfo :=
  let project_info := [] in
  let project_info :=
    dict_set project_info "project_name"
      (if_none_else project_name (PyStr.lower (PyPath.name (cwd env)))) in
  match dict_get project_info "project_name" with
  | Raise e => Raise e
  | Ok resolved_name =>
      Ok (dict_set project_info "package_name"
            (if_none_else package_name
               (PyStr.replace "-" "_" resolved_name)))
  end.

(** The identity: Python evaluates the arguments of a call before the
    call, so each [param_from_git] lookup runs whether or not the override
    is given. *)
Definition resolve_identity (env : Env) (project_info : ProjectInfo)
  (user_name user_email : option string) : res ProjectInfo :=
  match param_from_git env "user.name" with
  | Raise e => Raise e
  | Ok git_name =>
  let project_info :=
    dict_set project_info "user_name"
      (if_none_else user_name (if_none_else git_name "First Last")) in
  match param_from_git env "user.email" with
  | Raise e => Raise e
  | Ok git_email =>
  let project_info :=
    dict_set project_info "user_email"
      (if_none_else user_email (if_none_else git_email "name @ email.com")) in
  Ok project_info
  end end.

Definition resolve_project_info (env : Env)
  (project_name package_name user_name user_email : option string)
  : res ProjectInfo :=
  match resolve_names env project_name package_name with
  | Raise e => Raise e
  | Ok project_info => resolve_identity env project_info user_name user_email
  end.

(** ** The file system *)

(** The calls [init_repo] makes on the file system. *)
Inductive event : Type :=
| EvRead (path : string)
| EvWrite (path data : string)
| EvRename (src dst : string)
| EvUnlink (path : string).

(** The file system as the program sees it: [rglob fs] are the entries
    [Path().rglob("*")] yields (paths relative to the working directory, as
    [str(child)] prints them), the other operations are those of [Path]. *)
Class FileSystem (FS : Type) : Type := {
  rglob : FS -> list string;
  is_file : FS -> string -> bool;
  read_text : FS -> string -> res string;
  write_text : FS -> string -> string -> res FS;
  rename : FS -> string -> string -> res FS;
  unlink : FS -> string -> res FS
}.

(** Writing a file leaves the text of the other paths as it is. *)
Class FileSystemLaws (FS : Type) {fsys : FileSystem FS} : Prop := {
  write_text_frame :
    forall (fs fs' : FS) (path data other : string),
      write_text fs path data = Ok fs' ->
      other <> path ->
      read_text fs' other = read_text fs other
}.

Section Program.

Context {FS : Type} {fsys : FileSystem FS}.

(** A computation on the file system: the calls made, the file system
    reached, and a value or the exception raised. *)
Definition M (A : Type) : Type := FS -> list event * FS * res A.

Definition ret {A : Type} (a : A) : M A := fun fs => ([], fs, Ok a).

Definition bind {A B : Type} (m : M A) (f : A -> M B) : M B :=
  fun fs =>
    match m fs with
    | (log, fs', Ok a) =>
        match f a fs' with
        | (log', fs'', r) => ((log ++ log')%list, fs'', r)
        end
    | (log, fs', Raise e) => (log, fs', Raise e)
    end.

Definition lift {A : Type} (r : res A) : M A := fun fs => ([], fs, r).

(** A call that changes the file system. *)
Definition call (ev : event) (op : FS -> res FS) : M unit :=
  fun fs =>
    match op fs with
    | Ok fs' => ([ev], fs', Ok tt)
    | Raise e => ([ev], fs, Raise e)
    end.

(** A call that only reads it. *)
Definition query {A : Type} (log : list event) (op : FS -> res A) : M A :=
  fun fs => (log, fs, op fs).

(** [for child in children: body(child)] *)
Fixpoint for_each (children : list string) (body : string -> M unit)
  : M unit :=
  match children with
  | [] => ret tt
  | child :: rest => bind (body child) (fun _ => for_each rest body)
  end.

(** [update_file] *)
Definition update_file (filepath : string) (project_info : ProjectInfo)
  : M unit :=
  bind (query [EvRead filepath] (fun fs => read_text fs filepath))
    (fun filedata =>
       let filedata := update_placeholders filedata project_info in
       call (EvWrite filepath filedata)
            (fun fs => write_text fs filepath filedata)).

(** Body of the first loop of [init_repo]. *)
Definition content_step (project_info : ProjectInfo) (child : string)
  : M unit :=
  if negb (PyStr.startswith "." child)
  then
    bind (query [] (fun fs => Ok (is_file fs child)))
      (fun child_is_file =>
         if (child_is_file
             && negb (String.eqb (PyPath.suffix child) ".py"))%bool
         then update_file child project_info
         else ret tt)
  else ret tt.

(** Body of the second loop of [init_repo]: [target_path] is a [str],
    [child] a [Path]. *)
Definition path_step (project_info : ProjectInfo) (child : string)
  : M unit :=
  if negb (PyStr.startswith "." child)
  then
    let target_path := update_placeholders child project_info in
    if py_ne (VStr target_path) (VPath child)
    then call (EvRename child target_path)
              (fun fs => rename fs child target_path)
    else ret tt
  else ret tt.

Definition content_pass (project_info : ProjectInfo) : M unit :=
  bind (query [] (fun fs => Ok (rglob fs)))
    (fun children => for_each children (content_step project_info)).

Definition path_pass (project_info : ProjectInfo) : M unit :=
  bind (query [] (fun fs => Ok (rglob fs)))
    (fun children => for_each children (path_step project_info)).

(** [Path(__file__).unlink()] *)
Definition self_destruct (env : Env) : M unit :=
  call (EvUnlink (script env)) (fun fs => unlink fs (script env)).

(** [init_repo] *)
Definition init_repo (env : Env)
  (project_name package_name user_name user_email : option string)
  : M unit :=
  bind (lift (resolve_project_info env
                project_name package_name user_name user_email))
    (fun project_info =>
       bind (content_pass project_info) (fun _ =>
       bind (path_pass project_info) (fun _ =>
       self_destruct env))).

(** [main] *)
Definition main (env : Env) : M unit := init_repo env None None None None.

End Program.

(** ** A reference file system

    Entries are listed in traversal order; a file holds its text, or
    [None] when its bytes do not decode as text. *)

Module RefFS.

Inductive node : Type :=
| File (content : option string)
| Dir.

Definition tree : Type := list (string * node).

Fixpoint lookup (t : tree) (path : string) : option node :=
  match t with
  | [] => None
  | (p, n) :: t' => if String.eqb p path then Some n else lookup t' path
  end.

Fixpoint remove (t : tree) (path : string) : tree :=
  match t with
  | [] => []
  | (p, n) :: t' =>
      if String.eqb p path then remove t' path else (p, n) :: remove t' path
  end.

Definition ref_is_file (t : tree) (path : string) : bool :=
  match lookup t path with
  | Some (File _) => true
  | _ => false
  end.

Definition ref_read_text (t : tree) (path : string) : res string :=
  match lookup t path with
  | None => Raise FileNotFoundError
  | Some Dir => Raise IsADirectoryError
  | Some (File None) => Raise UnicodeDecodeError
  | Some (File (Some text)) => Ok text
  end.

Fixpoint store (t : tree) (path : string) (n : node) : tree :=
  match t with
  | [] => [(path, n)]
  | (p, m) :: t' =>
      if String.eqb p path then (p, n) :: t' else (p, m) :: store t' path n
  end.

(** The path of the directory an entry lies in, empty for an entry of the
    working directory. *)
Fixpoint dirname (path : string) : string :=
  match path with
  | EmptyString => EmptyString
  | String c path' =>
      if PyStr.has_char "/" path' then String c (dirname path')
      else EmptyString
  end.

(** What stands in the way of creating an entry at [path]: its directory
    is missing, or is a file. *)
Definition parent_error (t : tree) (path : string) : option exn :=
  match dirname path with
  | EmptyString => None
  | parent =>
      match lookup t parent with
      | None => Some FileNotFoundError
      | Some (File _) => Some OSError
      | Some Dir => None
      end
  end.

(** A directory with an entry below it. *)
Definition has_children (t : tree) (path : string) : bool :=
  existsb (fun e => PyStr.startswith (path ++ "/") (fst e)) t.

Definition ref_write_text (t : tree) (path data : string) : res tree :=
  match lookup t path with
  | Some Dir => Raise IsADirectoryError
  | Some (File _) => Ok (store t path (File (Some data)))
  | None =>
      match parent_error t path with
      | Some e => Raise e
      | None => Ok (store t path (File (Some data)))
      end
  end.

(** An entry at [src] or below it moves to the same place at or below
    [dst]. *)
Definition moved (src dst path : string) : string :=
  if String.eqb path src then dst
  else if PyStr.startswith (src ++ "/") path
       then dst ++ PyStr.drop (String.length src) path
       else path.

(** [os.rename]: the source must exist and the directory of the target
    too; a path renamed to itself stays; a directory does not move below
    itself; a file does not replace a directory, nor a directory a file or
    a directory that is not empty ([NotADirectoryError] and the other
    errors of the system are given as [OSError]). *)
Definition ref_rename (t : tree) (src dst : string) : res tree :=
  let move := map (fun e => (moved src dst (fst e), snd e)) (remove t dst) in
  match lookup t src with
  | None => Raise FileNotFoundError
  | Some n =>
      if String.eqb src dst then Ok t
      else if PyStr.startswith (src ++ "/") dst then Raise OSError
      else
        match parent_error t dst with
        | Some e => Raise e
        | None =>
            match n, lookup t dst with
            | _, None => Ok move
            | File _, Some (File _) => Ok move
            | File _, Some Dir => Raise IsADirectoryError
            | Dir, Some (File _) => Raise OSError
            | Dir, Some Dir =>
                if has_children t dst then Raise OSError else Ok move
            end
        end
  end.

Definition ref_unlink (t : tree) (path : string) : res tree :=
  match lookup t path with
  | None => Raise FileNotFoundError
  | Some Dir => Raise IsADirectoryError
  | Some (File _) => Ok (remove t path)
  end.

#[global] Instance ref_fs : FileSystem tree := {
  rglob t := map fst t;
  is_file := ref_is_file;
  read_text := ref_read_text;
  write_text := ref_write_text;
  rename := ref_rename;
  unlink := ref_unlink
}.

End RefFS.

(** ** Example runs *)

Definition four_keys : list string :=
  ["project_name"; "package_name"; "user_name"; "user_email"].

Definition demo_info : ProjectInfo :=
  [("project_name", "demo"); ("package_name", "demo");
   ("user_name", "Jane Doe"); ("user_email", "name @ email.com")].

(** Values that hold no brace at all, one of them a fragment of a key. *)
Definition glue_info : ProjectInfo :=
  [("project_name", "demo"); ("package_name", "demo");
   ("user_name", "ject_"); ("user_email", "name @ email.com")].

(** A project name that stands for the user name. *)
Definition chain_info : ProjectInfo :=
  [("project_name", "{user_name}"); ("package_name", "demo");
   ("user_name", "Jane Doe"); ("user_email", "name @ email.com")].

(** A tree in which a directory and a file in it both carry a placeholder. *)
Definition package_tree : RefFS.tree :=
  [ ("{package_name}", RefFS.Dir);
    ("{package_name}/{package_name}.py", RefFS.File (Some "# module")) ].

(** A project called [name]. *)
Definition name_info : ProjectInfo :=
  [("project_name", "name"); ("package_name", "name");
   ("user_name", "Jane"); ("user_email", "name @ email.com")].

(** A [git] whose global configuration holds both identity keys. *)
Definition git_configured (args : list string) : option CompletedProcess :=
  match args with
  | ["git"; "config"; "--global"; "user.name"] =>
      Some {| returncode := 0; stdout := "Jane Doe
" |}
  | ["git"; "config"; "--global"; "user.email"] =>
      Some {| returncode := 0; stdout := "jane@example.org
" |}
  | _ => Some {| returncode := 1; stdout := "" |}
  end.

(** A [git] that knows a user name but no e-mail address: the lookup of an
    unset key exits with status 1. *)
Definition git_no_email (args : list string) : option CompletedProcess :=
  match args with
  | ["git"; "config"; "--global"; "user.name"] =>
      Some {| returncode := 0; stdout := "Jane Doe
" |}
  | _ => Some {| returncode := 1; stdout := "" |}
  end.

Definition env_my_project : Env :=
  {| cwd := "/home/jane/My-Project";
     script := "init_repo.py";
     spawn := git_configured |}.

Definition env_no_email : Env :=
  {| cwd := "/home/jane/My-Project";
     script := "init_repo.py";
     spawn := git_no_email |}.

Definition demo_tree : RefFS.tree :=
  [ (".git", RefFS.Dir);
    (".git/config", RefFS.File (Some "name = {user_name}"));
    ("README.md",
       RefFS.File (Some "Welcome to {project_name}, by {user_name}"));
    ("init_repo.py", RefFS.File (Some "print('{project_name}')"));
    ("src", RefFS.Dir);
    ("src/.hidden", RefFS.Dir);
    ("src/.hidden/{user_name}.cfg", RefFS.File (Some "{project_name}"));
    ("src/{package_name}.py", RefFS.File (Some "# {project_name}")) ].

(** A tree with a file that is not text. *)
Definition binary_tree : RefFS.tree :=
  [ ("README.md", RefFS.File (Some "{project_name}"));
    ("logo.png", RefFS.File None);
    ("init_repo.py", RefFS.File (Some "print('{project_name}')")) ].

(** ** Predicates used in the statements *)

(** [old] occurs in [s] as a substring. *)
Definition occurs (old s : string) : Prop :=
  exists a b, s = a ++ old ++ b.

(** A path has a segment starting with a dot: it starts with one, or one
    follows a separator. *)
Definition has_hidden_segment (path : string) : bool :=
  PyStr.startswith "." path || PyStr.contains "/." path.

(** A text cut into the placeholders it holds and the text around them. *)
Inductive segment : Type :=
| Text (t : string)
| Placeholder (key : string).

(** The text as it stands in the file. *)
Fixpoint source (segs : list segment) : string :=
  match segs with
  | [] => ""
  | Text t :: segs' => t ++ source segs'
  | Placeholder key :: segs' => token key ++ source segs'
  end.

(** The text with every placeholder that has a value replaced by it. *)
Fixpoint filled (p : ProjectInfo) (segs : list segment) : string :=
  match segs with
  | [] => ""
  | Text t :: segs' => t ++ filled p segs'
  | Placeholder key :: segs' =>
      match dict_get p key with
      | Ok value => value ++ filled p segs'
      | Raise _ => token key ++ filled p segs'
      end
  end.

(** Neither brace occurs in [s]. *)
Definition brace_free (s : string) : bool :=
  negb (PyStr.has_char "{" s) && negb (PyStr.has_char "}" s).

(** A segment that cannot take part in a token other than itself: a text
    without opening brace, a placeholder whose key has no brace. *)
Definition plain (seg : segment) : Prop :=
  match seg with
  | Text t => PyStr.has_char "{" t = false
  | Placeholder key => brace_free key = true
  end.

(** One iteration of the loop of [update_placeholders], on segments. *)
Definition fill_one (key value : string) (seg : segment) : segment :=
  match seg with
  | Text t => Text t
  | Placeholder k => if String.eqb key k then Text value else Placeholder k
  end.

(** A text cut at its braces: every opening brace of the text starts one of
    the four placeholders. *)
Definition cut_at_braces (segs : list segment) : Prop :=
  Forall (fun seg =>
            match seg with
            | Text t => PyStr.has_char "{" t = false
            | Placeholder key => In key four_keys
            end) segs.

(** No value brings an opening brace. *)
Definition values_open_free (p : ProjectInfo) : Prop :=
  Forall (fun kv => PyStr.has_char "{" (snd kv) = false) p.

(** No value of [p] contains a token of a key of [p]. *)
Definition values_token_free (p : ProjectInfo) : Prop :=
  forall key value key',
    In (key, value) p -> In key' (map fst p) -> ~ occurs (token key') value.

(** The calls of a run. *)
Definition calls {FS A : Type} (run : list event * FS * res A) : list event :=
  fst (fst run).

(** The file system a run stops in. *)
Definition reached {FS A : Type} (run : list event * FS * res A) : FS :=
  snd (fst run).

(** The path a call is made on. *)
Definition event_path (ev : event) : string :=
  match ev with
  | EvRead path => path
  | EvWrite path _ => path
  | EvRename src _ => src
  | EvUnlink path => path
  end.

Definition is_unlink (ev : event) : bool :=
  match ev with
  | EvUnlink _ => true
  | _ => false
  end.

(** All four keys are there, each with a non-empty value. *)
Definition all_present_nonempty (p : ProjectInfo) : Prop :=
  forall key, In key four_keys ->
    exists value, dict_get p key = Ok value /\ value <> "".

Example replace_abc : PyStr.replace "" "-" "abc" = "-a-b-c-".
Proof. reflexivity. Qed.

Example replace_overlap : PyStr.replace "aa" "b" "aaaaa" = "bba".
Proof. reflexivity. Qed.

Example strip_ex : PyStr.strip "  Jane Doe
" = "Jane Doe".
Proof. reflexivity. Qed.

Example upd_readme :
  update_placeholders "Welcome to {project_name}, by {user_name}"
    [("project_name", "demo"); ("package_name", "demo");
     ("user_name", "Jane Doe"); ("user_email", "name @ email.com")]
  = "Welcome to demo, by Jane Doe".
Proof. reflexivity. Qed.

Example upd_glue :
  update_placeholders "{pro{user_name}name}"
    [("project_name", "demo"); ("package_name", "demo");
     ("user_name", "ject_"); ("user_email", "name @ email.com")]
  = "{project_name}".
Proof. reflexivity. Qed.

Example upd_glue2 :
  update_placeholders "{user_{project_name}}"
    [("project_name", "name"); ("package_name", "name");
     ("user_name", "Jane"); ("user_email", "name @ email.com")]
  = "Jane".
Proof. reflexivity. Qed.

(** ** Strings: append, prefixes, occurrences *)

Lemma append_assoc (a b c : string) : (a ++ b) ++ c = a ++ (b ++ c).
Proof. induction a as [|x a IH]; simpl; [reflexivity | now rewrite IH]. Qed.

Lemma append_empty_r (a : string) : a ++ "" = a.
Proof. induction a as [|x a IH]; simpl; [reflexivity | now rewrite IH]. Qed.

Lemma length_append (a b : string) :
  String.length (a ++ b) = String.length a + String.length b.
Proof. induction a as [|x a IH]; simpl; [reflexivity | now rewrite IH]. Qed.

Lemma startswith_cons (c d : ascii) (a s : string) :
  PyStr.startswith (String c a) (String d s)
  = (Ascii.eqb c d && PyStr.startswith a s)%bool.
Proof.
  unfold PyStr.startswith; simpl.
  destruct (ascii_dec c d) as [->|Hne].
  - now rewrite Ascii.eqb_refl.
  - apply Ascii.eqb_neq in Hne. now rewrite Hne.
Qed.

Lemma startswith_nil (s : string) : PyStr.startswith "" s = true.
Proof. now destruct s. Qed.

Lemma startswith_iff (old s : string) :
  PyStr.startswith old s = true <-> exists b, s = old ++ b.
Proof.
  revert s; induction old as [|c old IH]; intros s.
  - rewrite startswith_nil. split; [intros _; now exists s | reflexivity].
  - destruct s as [|d s].
    + split; [discriminate | intros [b Hb]; discriminate].
    + rewrite startswith_cons, andb_true_iff, Ascii.eqb_eq, IH.
      split.
      * intros [-> [b ->]]. now exists b.
      * intros [b Hb]. simpl in Hb. injection Hb as -> ->. split; eauto.
Qed.

Lemma contains_occurs (old s : string) :
  PyStr.contains old s = true <-> occurs old s.
Proof.
  split.
  - induction s as [|c s IH]; cbn [PyStr.contains]; rewrite orb_true_iff.
    + intros [H|H]; [|discriminate].
      apply startswith_iff in H as [b Hb]. now exists "", b.
    + intros [H|H].
      * apply startswith_iff in H as [b Hb]. now exists "", b.
      * destruct (IH H) as (a & b & ->). now exists (String c a), b.
  - intros (a & b & ->). induction a as [|c a IH].
    + assert (H : PyStr.startswith old (old ++ b) = true)
        by (apply startswith_iff; now exists b).
      cbn [append]. destruct (old ++ b); cbn [PyStr.contains]; now rewrite H.
    + cbn [append PyStr.contains]. rewrite IH. apply orb_true_r.
Qed.

Lemma not_occurs_contains (old s : string) :
  ~ occurs old s <-> PyStr.contains old s = false.
Proof.
  rewrite <- contains_occurs. destruct (PyStr.contains old s); split;
    congruence.
Qed.

(** [replace] leaves a string without occurrence of [old] as it is. *)
Lemma replace_from_absent (old new s : string) :
  PyStr.contains old s = false -> PyStr.replace_from 0 old new s = s.
Proof.
  induction s as [|c s IH]; [reflexivity|].
  cbn [PyStr.contains PyStr.replace_from].
  intros H. apply orb_false_iff in H as [H1 H2].
  rewrite H1. now rewrite IH.
Qed.

Lemma replace_token_absent (key new s : string) :
  PyStr.contains (token key) s = false ->
  PyStr.replace (token key) new s = s.
Proof. intros H. unfold token; simpl. now apply replace_from_absent. Qed.

(** Substitution is the identity on a string that holds no token. *)
Lemma update_placeholders_fixed (s : string) (p : ProjectInfo) :
  Forall (fun kv => PyStr.contains (token (fst kv)) s = false) p ->
  update_placeholders s p = s.
Proof.
  induction 1 as [|[key value] p H _ IH]; cbn [update_placeholders];
    [reflexivity|].
  cbn [fst] in H. now rewrite replace_token_absent.
Qed.

(** ** Substitution on strings without tokens, and applied twice *)

Ltac each_binding H :=
  repeat (destruct H as [H|H];
          [injection H as <- <-; apply not_occurs_contains; vm_compute;
           reflexivity|]);
  destruct H.

(** C10. For every string [s] and every project information [p] such that
    no token [{k}], [k] a key of [p], occurs in [s] as a substring,
    [update_placeholders s p] is [s]. *)
Theorem update_placeholders_without_token (s : string) (p : ProjectInfo) :
  (forall key value, In (key, value) p -> ~ occurs (token key) s) ->
  update_placeholders s p = s.
Proof.
  intros H. apply update_placeholders_fixed.
  apply Forall_forall. intros [key value] Hin. cbn [fst].
  apply not_occurs_contains. exact (H key value Hin).
Qed.

(** The partial token [{proj] is left alone. *)
Lemma update_placeholders_without_token_witness :
  (forall key value, In (key, value) demo_info ->
     ~ occurs (token key) "say {proj and {user_name") /\
  update_placeholders "say {proj and {user_name" demo_info
  = "say {proj and {user_name".
Proof.
  assert (H : forall key value, In (key, value) demo_info ->
                ~ occurs (token key) "say {proj and {user_name").
  { intros key value Hin. cbn [demo_info In] in Hin. each_binding Hin. }
  split; [exact H|].
  exact (update_placeholders_without_token "say {proj and {user_name"
           demo_info H).
Defined.

Lemma glue_info_token_free : values_token_free glue_info.
Proof.
  intros key value key' Hin Hkey.
  cbn [glue_info map fst In] in Hin, Hkey.
  repeat (destruct Hkey as [Hkey|Hkey];
          [subst key'; clear - Hin; each_binding Hin |]).
  destruct Hkey.
Qed.

(** C4, as stated, fails in both directions. No value of [glue_info]
    holds a token (none holds a brace), yet a second application changes
    the string again, the first one having assembled the token
    [{project_name}]. A value of [chain_info] holds the token [{user_name}],
    yet a second application changes nothing: the loop reaches the key
    [user_name] after [project_name] and fills the token in the same
    application. *)
Lemma update_placeholders_twice_differs :
  (values_token_free glue_info /\
   update_placeholders "{pro{user_name}name}" glue_info = "{project_name}" /\
   update_placeholders
     (update_placeholders "{pro{user_name}name}" glue_info) glue_info
   <> update_placeholders "{pro{user_name}name}" glue_info) /\
  (~ values_token_free chain_info /\
   update_placeholders "by {project_name}" chain_info = "by Jane Doe" /\
   update_placeholders
     (update_placeholders "by {project_name}" chain_info) chain_info
   = update_placeholders "by {project_name}" chain_info).
Proof.
  split; [split; [exact glue_info_token_free|split]|split; [|split]].
  - reflexivity.
  - vm_compute. discriminate.
  - intros H.
    apply (H "project_name" "{user_name}" "user_name").
    + cbn [chain_info In]. auto.
    + cbn [chain_info map fst In]. auto.
    + exists "", "". reflexivity.
  - reflexivity.
  - reflexivity.
Qed.

(** ** Substitution on a text cut into segments *)

Lemma replace_from_skip (a old new r : string) :
  PyStr.replace_from (String.length a) old new (a ++ r)
  = PyStr.replace_from 0 old new r.
Proof.
  induction a as [|c a IH]; cbn [String.length append].
  - reflexivity.
  - cbn [PyStr.replace_from]. exact IH.
Qed.

Lemma replace_from_text (key value t r : string) :
  PyStr.has_char "{" t = false ->
  PyStr.replace_from 0 (token key) value (t ++ r)
  = t ++ PyStr.replace_from 0 (token key) value r.
Proof.
  induction t as [|c t IH]; cbn [append PyStr.has_char]; [reflexivity|].
  intros H. apply orb_false_iff in H as [Hc Ht].
  cbn [PyStr.replace_from]. unfold token at 1. cbn [append].
  rewrite startswith_cons, Hc. cbn [andb].
  f_equal. exact (IH Ht).
Qed.

Lemma replace_from_same (key value r : string) :
  PyStr.replace_from 0 (token key) value (token key ++ r)
  = value ++ PyStr.replace_from 0 (token key) value r.
Proof.
  assert (Hpre : PyStr.startswith (token key) (token key ++ r) = true)
    by (apply startswith_iff; now exists r).
  unfold token in *. cbn [append] in *. cbn [PyStr.replace_from].
  rewrite Hpre. f_equal.
  cbn [String.length]. rewrite Nat.sub_1_r. cbn [Nat.pred].
  apply replace_from_skip.
Qed.

Lemma has_char_append (c : ascii) (a b : string) :
  PyStr.has_char c (a ++ b) = (PyStr.has_char c a || PyStr.has_char c b)%bool.
Proof.
  induction a as [|d a IH]; cbn [append PyStr.has_char]; [reflexivity|].
  now rewrite IH, orb_assoc.
Qed.

(** Two keys without closing brace that agree up to their closing brace are
    the same key. *)
Lemma closed_prefix_eq (k k' r : string) :
  PyStr.has_char "}" k = false ->
  PyStr.has_char "}" k' = false ->
  PyStr.startswith (k ++ "}") (k' ++ "}" ++ r) = true ->
  k = k'.
Proof.
  revert k'; induction k as [|c k IH]; intros [|d k'];
    cbn [append PyStr.has_char]; intros Hk Hk' Hpre.
  - reflexivity.
  - rewrite startswith_cons in Hpre.
    apply orb_false_iff in Hk' as [Hd _].
    rewrite Hd in Hpre. discriminate.
  - rewrite startswith_cons in Hpre.
    apply orb_false_iff in Hk as [Hc _].
    apply andb_true_iff in Hpre as [Hcd _].
    rewrite Ascii.eqb_sym, Hc in Hcd. discriminate.
  - rewrite startswith_cons in Hpre.
    apply andb_true_iff in Hpre as [Hcd Hpre].
    apply Ascii.eqb_eq in Hcd as ->.
    apply orb_false_iff in Hk as [_ Hk].
    apply orb_false_iff in Hk' as [_ Hk'].
    f_equal. now apply IH.
Qed.

Lemma brace_free_inv (k : string) :
  brace_free k = true ->
  PyStr.has_char "{" k = false /\ PyStr.has_char "}" k = false.
Proof.
  unfold brace_free. rewrite andb_true_iff, !negb_true_iff. tauto.
Qed.

Lemma replace_from_other (key k value r : string) :
  brace_free key = true ->
  brace_free k = true ->
  key <> k ->
  PyStr.replace_from 0 (token key) value (token k ++ r)
  = token k ++ PyStr.replace_from 0 (token key) value r.
Proof.
  intros Hkey Hk Hne.
  apply brace_free_inv in Hkey as [_ Hkey].
  apply brace_free_inv in Hk as [Hk_open Hk_close].
  assert (Hpre : PyStr.startswith (token key) (token k ++ r) = false).
  { destruct (PyStr.startswith (token key) (token k ++ r)) eqn:E;
      [|reflexivity].
    exfalso. apply Hne.
    unfold token in E. cbn [append] in E.
    rewrite startswith_cons in E. apply andb_true_iff in E as [_ E].
    rewrite append_assoc in E.
    now apply (closed_prefix_eq key k r). }
  assert (Hbody : PyStr.has_char "{" (k ++ "}") = false).
  { rewrite has_char_append, Hk_open. reflexivity. }
  pose proof (replace_from_text key value (k ++ "}") r Hbody) as Hrest.
  unfold token in *. cbn [append] in *. cbn [PyStr.replace_from].
  rewrite Hpre. f_equal. exact Hrest.
Qed.

Lemma replace_source (key value : string) (segs : list segment) :
  brace_free key = true ->
  Forall plain segs ->
  PyStr.replace (token key) value (source segs)
  = source (map (fill_one key value) segs).
Proof.
  intros Hkey Hsegs.
  change (PyStr.replace (token key) value (source segs))
    with (PyStr.replace_from 0 (token key) value (source segs)).
  induction Hsegs as [|[t|k] segs Hseg _ IH]; cbn [source map fill_one].
  - reflexivity.
  - cbn [plain] in Hseg. rewrite replace_from_text by exact Hseg.
    now rewrite IH.
  - cbn [plain] in Hseg. destruct (String.eqb_spec key k) as [<-|Hne].
    + cbn [source]. rewrite replace_from_same. now rewrite IH.
    + cbn [source]. rewrite replace_from_other by assumption. now rewrite IH.
Qed.

Lemma fill_one_plain (key value : string) (segs : list segment) :
  PyStr.has_char "{" value = false ->
  Forall plain segs ->
  Forall plain (map (fill_one key value) segs).
Proof.
  intros Hvalue Hsegs.
  induction Hsegs as [|[t|k] segs Hseg _ IH]; cbn [map fill_one];
    constructor; try assumption.
  destruct (String.eqb key k); assumption.
Qed.

Lemma filled_nil (segs : list segment) : filled [] segs = source segs.
Proof.
  induction segs as [|[t|k] segs IH]; cbn [filled source dict_get];
    now rewrite ?IH.
Qed.

Lemma filled_cons (key value : string) (p : ProjectInfo)
  (segs : list segment) :
  filled p (map (fill_one key value) segs) = filled ((key, value) :: p) segs.
Proof.
  induction segs as [|[t|k] segs IH]; cbn [map fill_one filled dict_get].
  - reflexivity.
  - now rewrite IH.
  - destruct (String.eqb key k); cbn [filled]; now rewrite IH.
Qed.

(** On a text whose braces all belong to its placeholders, with values
    that bring no opening brace, the loop fills every placeholder and
    keeps the rest. *)
Lemma update_placeholders_source (p : ProjectInfo) (segs : list segment) :
  Forall (fun kv => brace_free (fst kv) = true
                    /\ PyStr.has_char "{" (snd kv) = false) p ->
  Forall plain segs ->
  update_placeholders (source segs) p = filled p segs.
Proof.
  intros Hp; revert segs.
  induction Hp as [|[key value] p [Hkey Hvalue] _ IH]; intros segs Hsegs;
    cbn [update_placeholders].
  - now rewrite filled_nil.
  - cbn [fst snd] in Hkey, Hvalue.
    rewrite replace_source by assumption.
    rewrite IH by now apply fill_one_plain.
    apply filled_cons.
Qed.

Lemma four_keys_brace_free (key : string) :
  In key four_keys -> brace_free key = true.
Proof.
  cbn [four_keys In]. intros [<-|[<-|[<-|[<-|[]]]]]; reflexivity.
Qed.

Lemma cut_at_braces_plain (segs : list segment) :
  cut_at_braces segs -> Forall plain segs.
Proof.
  apply Forall_impl. intros [t|key]; cbn [plain]; [trivial|].
  apply four_keys_brace_free.
Qed.

Lemma four_keys_values_ok (p : ProjectInfo) :
  map fst p = four_keys ->
  values_open_free p ->
  Forall (fun kv => brace_free (fst kv) = true
                    /\ PyStr.has_char "{" (snd kv) = false) p.
Proof.
  intros Hkeys Hvalues. apply Forall_forall. intros kv Hin. split.
  - apply four_keys_brace_free. rewrite <- Hkeys. now apply in_map.
  - unfold values_open_free in Hvalues.
    rewrite Forall_forall in Hvalues. now apply Hvalues.
Qed.

Lemma update_file_run {FS : Type} {fsys : FileSystem FS}
  (fs fs' : FS) (path text : string) (p : ProjectInfo) :
  read_text fs path = Ok text ->
  write_text fs path (update_placeholders text p) = Ok fs' ->
  update_file path p fs
  = ([EvRead path; EvWrite path (update_placeholders text p)], fs', Ok tt).
Proof.
  intros Hread Hwrite. unfold update_file, bind, query, call.
  rewrite Hread, Hwrite. reflexivity.
Qed.

(** C5, as the code has it. With the four keys, values that hold no opening
    brace and a file whose opening braces all start a placeholder, every
    placeholder is replaced by its value and the text around the
    placeholders is kept as it is; [update_file] reads the file and writes
    that text back. *)
Theorem placeholders_filled (p : ProjectInfo) (segs : list segment) :
  map fst p = four_keys ->
  values_open_free p ->
  cut_at_braces segs ->
  update_placeholders (source segs) p = filled p segs /\
  forall (FS : Type) (fsys : FileSystem FS) (fs fs' : FS) (path : string),
    read_text fs path = Ok (source segs) ->
    write_text fs path (filled p segs) = Ok fs' ->
    update_file path p fs
    = ([EvRead path; EvWrite path (filled p segs)], fs', Ok tt).
Proof.
  intros Hkeys Hvalues Hsegs.
  assert (Hupd : update_placeholders (source segs) p = filled p segs).
  { apply update_placeholders_source.
    - now apply four_keys_values_ok.
    - now apply cut_at_braces_plain. }
  split; [exact Hupd|].
  intros FS fsys fs fs' path Hread Hwrite.
  rewrite <- Hupd in *. now apply update_file_run.
Qed.

(** The README of the template, initialised for the project [demo]. *)
Lemma placeholders_filled_witness :
  update_placeholders "Welcome to {project_name}, by {user_name}" demo_info
  = "Welcome to demo, by Jane Doe" /\
  update_file "README.md" demo_info demo_tree
  = ([EvRead "README.md";
      EvWrite "README.md" "Welcome to demo, by Jane Doe"],
     RefFS.store demo_tree "README.md"
       (RefFS.File (Some "Welcome to demo, by Jane Doe")),
     Ok tt).
Proof.
  pose (segs := [Text "Welcome to "; Placeholder "project_name";
                 Text ", by "; Placeholder "user_name"]).
  assert (Hkeys : map fst demo_info = four_keys) by reflexivity.
  assert (Hvalues : values_open_free demo_info)
    by (repeat constructor).
  assert (Hsegs : cut_at_braces segs)
    by (repeat constructor; cbn [four_keys In]; auto).
  destruct (placeholders_filled demo_info segs Hkeys Hvalues Hsegs)
    as [Hupd Hfile].
  split; [exact Hupd|].
  exact (Hfile RefFS.tree RefFS.ref_fs demo_tree _ "README.md"
           eq_refl eq_refl).
Defined.

(** C5, as stated, fails: in [{user_{project_name}}] the text around the
    placeholder holds no token, yet it does not survive: the value [name]
    completes the token [{user_name}], which the loop then replaces. *)
Lemma placeholder_in_braces_consumed :
  map fst name_info = four_keys /\
  (forall key, In key four_keys ->
     ~ occurs (token key) "{user_" /\ ~ occurs (token key) "}") /\
  source [Text "{user_"; Placeholder "project_name"; Text "}"]
  = "{user_{project_name}}" /\
  filled name_info [Text "{user_"; Placeholder "project_name"; Text "}"]
  = "{user_name}" /\
  update_placeholders "{user_{project_name}}" name_info = "Jane".
Proof.
  split; [reflexivity|]. split; [|repeat split].
  intros key Hin. cbn [four_keys In] in Hin.
  repeat (destruct Hin as [Hin|Hin];
          [subst key; split; apply not_occurs_contains; reflexivity|]).
  destruct Hin.
Qed.

(** With values and text free of opening braces outside the placeholders,
    the result holds no opening brace, and a second application changes
    nothing. *)
Lemma has_char_filled (p : ProjectInfo) (segs : list segment) :
  map fst p = four_keys ->
  values_open_free p ->
  cut_at_braces segs ->
  PyStr.has_char "{" (filled p segs) = false.
Proof.
  intros Hkeys Hvalues Hsegs.
  induction Hsegs as [|[t|key] segs Hseg _ IH]; cbn [filled].
  - reflexivity.
  - now rewrite has_char_append, Hseg, IH.
  - destruct (dict_get p key) as [value|e] eqn:Hget.
    + rewrite has_char_append, IH, orb_false_r.
      clear - Hvalues Hget. induction Hvalues as [|[k v] p Hv _ IHp].
      * discriminate.
      * cbn [dict_get] in Hget. destruct (String.eqb k key).
        -- now injection Hget as <-.
        -- now apply IHp.
    + exfalso. rewrite <- Hkeys in Hseg. clear - Hseg Hget.
      induction p as [|[k v] p IHp]; [destruct Hseg|].
      cbn [dict_get] in Hget. destruct (String.eqb_spec k key) as [->|Hne].
      * discriminate.
      * destruct Hseg as [Heq|Hin]; [now elim Hne | now apply IHp].
Qed.

Lemma contains_token_has_open (key s : string) :
  PyStr.has_char "{" s = false -> PyStr.contains (token key) s = false.
Proof.
  induction s as [|c s IH]; cbn [PyStr.has_char PyStr.contains].
  - reflexivity.
  - intros H. apply orb_false_iff in H as [Hc Hs].
    unfold token at 1. cbn [append]. rewrite startswith_cons, Hc.
    cbn [andb orb]. now apply IH.
Qed.

(** C4, as the code has it. With the four keys, applying
    [update_placeholders] twice equals applying it once when no value
    holds an opening brace and every opening brace of the string starts one
    of the four placeholders: the string obtained the first time holds no
    opening brace any more. *)
Theorem update_placeholders_twice (p : ProjectInfo) (segs : list segment) :
  map fst p = four_keys ->
  values_open_free p ->
  cut_at_braces segs ->
  PyStr.has_char "{" (update_placeholders (source segs) p) = false /\
  update_placeholders (update_placeholders (source segs) p) p
  = update_placeholders (source segs) p.
Proof.
  intros Hkeys Hvalues Hsegs.
  rewrite (update_placeholders_source p segs)
    by (now apply four_keys_values_ok || now apply cut_at_braces_plain).
  assert (Hopen : PyStr.has_char "{" (filled p segs) = false)
    by now apply has_char_filled.
  split; [exact Hopen|].
  apply update_placeholders_fixed, Forall_forall. intros kv _.
  now apply contains_token_has_open.
Qed.

Lemma update_placeholders_twice_witness :
  PyStr.has_char "{"
    (update_placeholders "Welcome to {project_name}, by {user_name}"
       demo_info) = false /\
  update_placeholders
    (update_placeholders "Welcome to {project_name}, by {user_name}"
       demo_info) demo_info
  = update_placeholders "Welcome to {project_name}, by {user_name}"
      demo_info.
Proof.
  pose (segs := [Text "Welcome to "; Placeholder "project_name";
                 Text ", by "; Placeholder "user_name"]).
  assert (Hvalues : values_open_free demo_info) by (repeat constructor).
  assert (Hsegs : cut_at_braces segs)
    by (repeat constructor; cbn [four_keys In]; auto).
  exact (update_placeholders_twice demo_info segs eq_refl Hvalues Hsegs).
Defined.

(** ** Parameter resolution *)

(** With [check=True], [run] raises on a non-zero exit status: the test of
    [returncode] in [param_from_git] never fails, and [None] is never
    returned. *)
Lemma param_from_git_nonzero (env : Env) (key : string)
  (process : CompletedProcess) :
  spawn env ["git"; "config"; "--global"; key] = Some process ->
  returncode process <> 0%Z ->
  param_from_git env key = Raise (CalledProcessError (returncode process)).
Proof.
  intros Hspawn Hcode. unfold param_from_git, run. rewrite Hspawn.
  apply Z.eqb_neq in Hcode. now rewrite Hcode.
Qed.

Lemma param_from_git_not_none (env : Env) (key : string) :
  param_from_git env key <> Ok None.
Proof.
  unfold param_from_git, run.
  destruct (spawn env _) as [process|]; [|discriminate].
  destruct (Z.eqb (returncode process) 0) eqn:Hcode; cbn [negb andb].
  - rewrite Hcode. destruct (decode_utf8 (stdout process)); discriminate.
  - discriminate.
Qed.

(** C1, on the code. With no e-mail address in the global configuration,
    [git config --global user.email] exits with status 1:
    [param_from_git] raises [CalledProcessError] instead of returning
    [None], and the resolution of the parameters raises with it instead of
    reaching ["name @ email.com"]. *)
Theorem param_from_git_raises_on_unset_key :
  spawn env_no_email ["git"; "config"; "--global"; "user.email"]
  = Some {| returncode := 1; stdout := "" |} /\
  param_from_git env_no_email "user.email" = Raise (CalledProcessError 1) /\
  resolve_project_info env_no_email None None None None
  = Raise (CalledProcessError 1).
Proof. repeat split. Qed.

Lemma resolve_names_ok (env : Env) (project_name package_name : option string) :
  resolve_names env project_name package_name
  = Ok [("project_name",
         if_none_else project_name (PyStr.lower (PyPath.name (cwd env))));
        ("package_name",
         if_none_else package_name
           (PyStr.replace "-" "_"
              (if_none_else project_name
                 (PyStr.lower (PyPath.name (cwd env))))))].
Proof. reflexivity. Qed.

Lemma resolve_identity_ok (env : Env) (names : ProjectInfo)
  (user_name user_email : option string) (info : ProjectInfo) :
  resolve_identity env names user_name user_email = Ok info ->
  exists name email,
    info = dict_set (dict_set names "user_name" name) "user_email" email /\
    (name = "" ->
       user_name = Some "" \/ param_from_git env "user.name" = Ok (Some "")) /\
    (email = "" ->
       user_email = Some ""
       \/ param_from_git env "user.email" = Ok (Some "")).
Proof.
  unfold resolve_identity.
  destruct (param_from_git env "user.name") as [git_name|e]; [|discriminate].
  destruct (param_from_git env "user.email") as [git_email|e];
    [|discriminate].
  intros H. injection H as <-.
  eexists _, _. split; [reflexivity|]. split.
  - destruct user_name as [a|]; cbn [if_none_else].
    + intros ->. now left.
    + destruct git_name as [g|]; cbn [if_none_else].
      * intros ->. now right.
      * discriminate.
  - destruct user_email as [a|]; cbn [if_none_else].
    + intros ->. now left.
    + destruct git_email as [g|]; cbn [if_none_else].
      * intros ->. now right.
      * discriminate.
Qed.

(** C6. With no [project_name] argument the project name is the name of
    the working directory in lower case; with no [package_name] argument
    the package name is the resolved project name with every [-] replaced
    by [_]; both names are those of the information [init_repo] goes on
    with. *)
Theorem default_names (env : Env) :
  (forall package_name, exists names,
     resolve_names env None package_name = Ok names /\
     dict_get names "project_name"
     = Ok (PyStr.lower (PyPath.name (cwd env)))) /\
  (forall project_name, exists names resolved,
     resolve_names env project_name None = Ok names /\
     dict_get names "project_name" = Ok resolved /\
     dict_get names "package_name"
     = Ok (PyStr.replace "-" "_" resolved)) /\
  (forall project_name package_name user_name user_email names info,
     resolve_names env project_name package_name = Ok names ->
     resolve_project_info env project_name package_name user_name user_email
     = Ok info ->
     dict_get info "project_name" = dict_get names "project_name" /\
     dict_get info "package_name" = dict_get names "package_name").
Proof.
  split; [|split].
  - intros package_name. eexists. split; [apply resolve_names_ok|].
    reflexivity.
  - intros project_name. eexists _, _.
    split; [apply resolve_names_ok|]. split; reflexivity.
  - intros project_name package_name user_name user_email names info
      Hnames Hinfo.
    unfold resolve_project_info in Hinfo. rewrite Hnames in Hinfo.
    rewrite resolve_names_ok in Hnames. injection Hnames as <-.
    apply resolve_identity_ok in Hinfo as (name & email & -> & _).
    split; reflexivity.
Qed.

(** In the directory [My-Project], with no argument. *)
Lemma default_names_witness :
  resolve_project_info env_my_project None None None None
  = Ok [("project_name", "my-project"); ("package_name", "my_project");
        ("user_name", "Jane Doe"); ("user_email", "jane@example.org")] /\
  dict_get [("project_name", "my-project"); ("package_name", "my_project");
            ("user_name", "Jane Doe"); ("user_email", "jane@example.org")]
    "project_name" = Ok "my-project" /\
  dict_get [("project_name", "my-project"); ("package_name", "my_project");
            ("user_name", "Jane Doe"); ("user_email", "jane@example.org")]
    "package_name" = Ok "my_project".
Proof.
  split; [reflexivity|].
  exact (proj2 (proj2 (default_names env_my_project))
           None None None None
           [("project_name", "my-project"); ("package_name", "my_project")]
           _ eq_refl eq_refl).
Defined.

Lemma lower_nonempty (s : string) : s <> "" -> PyStr.lower s <> "".
Proof. destruct s; [congruence | discriminate]. Qed.

Lemma replace_dash_nonempty (s : string) :
  s <> "" -> PyStr.replace "-" "_" s <> "".
Proof.
  destruct s as [|c s]; [congruence|]. intros _.
  unfold PyStr.replace. cbn [PyStr.replace_from].
  destruct (PyStr.startswith "-" (String c s)); discriminate.
Qed.

(** C9, as the code has it. When the resolution of the parameters
    completes, the four keys are there, in this order and no other; their
    values are non-empty provided no argument is the empty string, the
    working directory has a name, and no lookup answers the empty string. *)
Theorem four_keys_present (env : Env)
  (project_name package_name user_name user_email : option string)
  (info : ProjectInfo) :
  resolve_project_info env project_name package_name user_name user_email
  = Ok info ->
  map fst info = four_keys /\
  ((forall a, In (Some a) [project_name; package_name; user_name; user_email]
              -> a <> "") ->
   PyPath.name (cwd env) <> "" ->
   param_from_git env "user.name" <> Ok (Some "") ->
   param_from_git env "user.email" <> Ok (Some "") ->
   all_present_nonempty info).
Proof.
  unfold resolve_project_info. rewrite resolve_names_ok. intros Hinfo.
  apply resolve_identity_ok in Hinfo as (name & email & -> & Hname & Hemail).
  split; [reflexivity|].
  intros Hargs Hcwd Hgit_name Hgit_email.
  assert (Hproject :
            if_none_else project_name (PyStr.lower (PyPath.name (cwd env)))
            <> "").
  { destruct project_name as [a|]; cbn [if_none_else].
    - apply Hargs. cbn [In]. auto.
    - now apply lower_nonempty. }
  assert (Hpackage :
            if_none_else package_name
              (PyStr.replace "-" "_"
                 (if_none_else project_name
                    (PyStr.lower (PyPath.name (cwd env))))) <> "").
  { destruct package_name as [a|]; cbn [if_none_else].
    - apply Hargs. cbn [In]. auto.
    - now apply replace_dash_nonempty. }
  assert (Hn : name <> "").
  { intros E. destruct (Hname E) as [->|H]; [|contradiction].
    apply (Hargs ""); cbn [In]; auto. }
  assert (He : email <> "").
  { intros E. destruct (Hemail E) as [->|H]; [|contradiction].
    apply (Hargs ""); cbn [In]; auto. }
  intros key Hkey. cbn [four_keys In] in Hkey.
  destruct Hkey as [<-|[<-|[<-|[<-|[]]]]]; eexists; (split; [reflexivity|]);
    assumption.
Qed.

Lemma four_keys_present_witness :
  resolve_project_info env_my_project (Some "demo") None None None
  = Ok [("project_name", "demo"); ("package_name", "demo");
        ("user_name", "Jane Doe"); ("user_email", "jane@example.org")] /\
  map fst [("project_name", "demo"); ("package_name", "demo");
           ("user_name", "Jane Doe"); ("user_email", "jane@example.org")]
  = four_keys /\
  all_present_nonempty
    [("project_name", "demo"); ("package_name", "demo");
     ("user_name", "Jane Doe"); ("user_email", "jane@example.org")].
Proof.
  split; [reflexivity|].
  destruct (four_keys_present env_my_project (Some "demo") None None None
              _ eq_refl) as [Hkeys Hvalues].
  split; [exact Hkeys|].
  apply Hvalues.
  - intros a Hin. cbn [In] in Hin.
    destruct Hin as [H|[H|[H|[H|[]]]]]; try discriminate.
    injection H as <-. discriminate.
  - vm_compute. discriminate.
  - vm_compute. discriminate.
  - vm_compute. discriminate.
Defined.

(** C9, as stated, fails: an empty [project_name] argument is not [None]
    and is kept, and the package name derived from it is empty too. *)
Lemma empty_project_name_kept :
  resolve_project_info env_my_project (Some "") None None None
  = Ok [("project_name", ""); ("package_name", "");
        ("user_name", "Jane Doe"); ("user_email", "jane@example.org")] /\
  ~ all_present_nonempty
      [("project_name", ""); ("package_name", "");
       ("user_name", "Jane Doe"); ("user_email", "jane@example.org")].
Proof.
  split; [reflexivity|].
  intros H. destruct (H "project_name") as (value & Hget & Hne).
  - cbn [four_keys In]. auto.
  - cbn in Hget. injection Hget as <-. now apply Hne.
Qed.

(** ** The two passes and the calls they make *)

Section Passes.

Context {FS : Type} {fsys : FileSystem FS}.

Lemma calls_bind {A B : Type} (m : M A) (f : A -> M B) (fs : FS)
  (ev : event) :
  In ev (calls (bind m f fs)) ->
  In ev (calls (m fs))
  \/ exists a fs', In ev (calls (f a fs')).
Proof.
  unfold bind, calls.
  destruct (m fs) as [[log fs'] [a|e]]; cbn [fst].
  - destruct (f a fs') as [[log' fs''] r] eqn:Hf; cbn [fst].
    intros Hin. apply in_app_or in Hin as [Hin|Hin]; [now left|].
    right. exists a, fs'. now rewrite Hf.
  - now left.
Qed.

(** Every call of a loop is a call of its body on one of the children. *)
Lemma for_each_calls (body : string -> M unit) (children : list string)
  (fs : FS) (ev : event) :
  In ev (calls (for_each children body fs)) ->
  exists child fs', In child children /\ In ev (calls (body child fs')).
Proof.
  revert fs; induction children as [|child rest IH]; intros fs;
    cbn [for_each].
  - intros [].
  - intros Hin. apply calls_bind in Hin as [Hin|(u & fs' & Hin)].
    + exists child, fs. split; [now left | exact Hin].
    + destruct (IH fs' Hin) as (c & fs'' & Hc & Hev).
      exists c, fs''. split; [now right | exact Hev].
Qed.


Lemma update_file_calls (path : string) (info : ProjectInfo) (fs : FS)
  (ev : event) :
  In ev (calls (update_file path info fs)) ->
  event_path ev = path /\ is_unlink ev = false.
Proof.
  unfold update_file, bind, query, call, calls.
  destruct (read_text fs path) as [text|e]; cbn [fst].
  - destruct (write_text fs path (update_placeholders text info));
      cbn [fst app In]; intros [<-|[<-|[]]]; now split.
  - cbn [In]. intros [<-|[]]. now split.
Qed.

(** The first loop calls only on files that are not selected out: the path
    does not start with a dot and does not end in [.py]. *)
Lemma content_step_calls (info : ProjectInfo) (child : string) (fs : FS)
  (ev : event) :
  In ev (calls (content_step info child fs)) ->
  event_path ev = child /\
  is_unlink ev = false /\
  PyStr.startswith "." child = false /\
  PyPath.suffix child <> ".py".
Proof.
  unfold content_step.
  destruct (PyStr.startswith "." child) eqn:Hdot; cbn [negb];
    [intros []|].
  unfold bind at 1, query at 1.
  destruct (is_file fs child); cbn [andb].
  - destruct (String.eqb_spec (PyPath.suffix child) ".py") as [Hpy|Hpy];
      cbn [negb].
    + intros [].
    + intros Hin.
      assert (Hin' : In ev (calls (update_file child info fs))).
      { unfold calls in *. destruct (update_file child info fs) as [[l f] r].
        exact Hin. }
      apply update_file_calls in Hin' as [Hpath Hun]. now repeat split.
  - intros [].
Qed.

(** The second loop calls [rename] on every child whose path does not
    start with a dot, whatever the substituted path is. *)
Lemma path_step_visible (info : ProjectInfo) (child : string) (fs : FS) :
  PyStr.startswith "." child = false ->
  calls (path_step info child fs)
  = [EvRename child (update_placeholders child info)].
Proof.
  intros Hdot. unfold path_step, call, calls. rewrite Hdot. cbn.
  destruct (rename fs child (update_placeholders child info)); reflexivity.
Qed.

Lemma path_step_hidden (info : ProjectInfo) (child : string) (fs : FS) :
  PyStr.startswith "." child = true ->
  path_step info child fs = ([], fs, Ok tt).
Proof. intros Hdot. unfold path_step. now rewrite Hdot. Qed.

Lemma path_step_calls (info : ProjectInfo) (child : string) (fs : FS)
  (ev : event) :
  In ev (calls (path_step info child fs)) ->
  ev = EvRename child (update_placeholders child info) /\
  PyStr.startswith "." child = false.
Proof.
  destruct (PyStr.startswith "." child) eqn:Hdot.
  - rewrite path_step_hidden by exact Hdot. intros [].
  - rewrite path_step_visible by exact Hdot. intros [<-|[]]. now split.
Qed.

Lemma content_pass_calls (info : ProjectInfo) (fs : FS) (ev : event) :
  In ev (calls (content_pass info fs)) ->
  is_unlink ev = false /\
  PyStr.startswith "." (event_path ev) = false /\
  PyPath.suffix (event_path ev) <> ".py".
Proof.
  unfold content_pass. intros Hin.
  apply calls_bind in Hin as [[]|(children & fs' & Hin)].
  apply for_each_calls in Hin as (child & fs'' & _ & Hin).
  apply content_step_calls in Hin as (-> & Hun & Hdot & Hpy).
  now repeat split.
Qed.

Lemma path_pass_calls (info : ProjectInfo) (fs : FS) (ev : event) :
  In ev (calls (path_pass info fs)) ->
  is_unlink ev = false /\
  PyStr.startswith "." (event_path ev) = false.
Proof.
  unfold path_pass. intros Hin.
  apply calls_bind in Hin as [[]|(children & fs' & Hin)].
  apply for_each_calls in Hin as (child & fs'' & _ & Hin).
  apply path_step_calls in Hin as [-> Hdot]. now split.
Qed.

Lemma no_unlink (log : list event) :
  (forall ev, In ev log -> is_unlink ev = false) ->
  existsb is_unlink log = false.
Proof.
  intros H. induction log as [|ev log IH]; cbn [existsb]; [reflexivity|].
  rewrite (H ev) by now left. cbn [orb]. apply IH.
  intros ev' Hin. apply H. now right.
Qed.

(** What holds of the file system before a loop and is kept by its body
    holds after the loop. *)
Lemma for_each_reached (P : FS -> Prop) (body : string -> M unit)
  (children : list string) (fs : FS) :
  (forall child fs0, P fs0 -> P (reached (body child fs0))) ->
  P fs ->
  P (reached (for_each children body fs)).
Proof.
  intros Hbody. revert fs; induction children as [|child rest IH];
    intros fs Hfs; cbn [for_each].
  - exact Hfs.
  - unfold bind. pose proof (Hbody child fs Hfs) as Hstep.
    unfold reached in *.
    destruct (body child fs) as [[l1 fs1] [u|e]]; cbn [fst snd] in *.
    + pose proof (IH fs1 Hstep) as Hrest.
      destruct (for_each rest body fs1) as [[l2 fs2] r]. exact Hrest.
    + exact Hstep.
Qed.

Lemma update_file_frame {laws : FileSystemLaws FS} (path : string)
  (info : ProjectInfo) (fs : FS) (other : string) :
  other <> path ->
  read_text (reached (update_file path info fs)) other = read_text fs other.
Proof.
  intros Hne. unfold update_file, bind, query, call, reached.
  destruct (read_text fs path) as [text|e]; cbn [fst snd]; [|reflexivity].
  destruct (write_text fs path (update_placeholders text info))
    as [fs'|e] eqn:Hwrite; cbn [fst snd]; [|reflexivity].
  exact (write_text_frame fs fs' path _ other Hwrite Hne).
Qed.

(** The content pass keeps the text of every path it selects out. *)
Lemma content_pass_frame {laws : FileSystemLaws FS} (info : ProjectInfo)
  (fs : FS) (other : string) :
  PyStr.startswith "." other = true \/ PyPath.suffix other = ".py" ->
  read_text (reached (content_pass info fs)) other = read_text fs other.
Proof.
  intros Hout. unfold content_pass, bind, query.
  change (read_text
            (reached
               (let '(log', fs'', r) :=
                  for_each (rglob fs) (content_step info) fs in
                (([] ++ log')%list, fs'', r))) other = read_text fs other).
  assert (Hloop :
            read_text
              (reached (for_each (rglob fs) (content_step info) fs)) other
            = read_text fs other).
  { apply (for_each_reached
             (fun fs0 => read_text fs0 other = read_text fs other));
      [|reflexivity].
    intros child fs0 Hfs0. rewrite <- Hfs0.
    unfold content_step.
    destruct (PyStr.startswith "." child) eqn:Hdot; cbn [negb];
      [reflexivity|].
    unfold bind at 1, query at 1.
    destruct (is_file fs0 child); cbn [andb]; [|reflexivity].
    destruct (String.eqb_spec (PyPath.suffix child) ".py") as [Hpy|Hpy];
      cbn [negb]; [reflexivity|].
    assert (Hne : other <> child).
    { intros ->. destruct Hout as [H|H]; congruence. }
    pose proof (update_file_frame child info fs0 other Hne) as Hframe.
    unfold reached in *.
    destruct (update_file child info fs0) as [[l f] r]. exact Hframe. }
  unfold reached in *.
  destruct (for_each (rglob fs) (content_step info) fs) as [[l f] r].
  exact Hloop.
Qed.

End Passes.

Lemma lookup_store_other (t : RefFS.tree) (path other : string)
  (n : RefFS.node) :
  other <> path ->
  RefFS.lookup (RefFS.store t path n) other = RefFS.lookup t other.
Proof.
  intros Hne. induction t as [|[p m] t IH]; cbn [RefFS.store RefFS.lookup].
  - apply String.eqb_neq in Hne. now rewrite String.eqb_sym, Hne.
  - destruct (String.eqb_spec p path) as [->|Hp]; cbn [RefFS.lookup].
    + apply String.eqb_neq in Hne. now rewrite String.eqb_sym, Hne.
    + now rewrite IH.
Qed.

(** The reference file system is lawful. *)
Lemma ref_fs_laws : FileSystemLaws RefFS.tree.
Proof.
  constructor. intros fs fs' path data other Hwrite Hne.
  cbn in *. unfold RefFS.ref_write_text in Hwrite.
  assert (Hfs' : fs' = RefFS.store fs path (RefFS.File (Some data))).
  { destruct (RefFS.lookup fs path) as [[c|]|]; try congruence.
    destruct (RefFS.parent_error fs path); congruence. }
  subst fs'. unfold RefFS.ref_read_text.
  now rewrite lookup_store_other.
Qed.

(** ** Hidden entries *)

(** C2, as the code has it. For every tree, an entry whose path starts
    with a dot (its first segment is hidden) is the subject of no call of
    the content pass, keeps its text through the content pass (on a lawful
    file system), and is the subject of no [rename] call of the path
    pass. *)
Theorem hidden_prefix_untouched (FS : Type) (fsys : FileSystem FS)
  (info : ProjectInfo) (fs : FS) (child : string) :
  PyStr.startswith "." child = true ->
  (forall ev, In ev (calls (content_pass info fs)) ->
              event_path ev <> child) /\
  (FileSystemLaws FS ->
   read_text (reached (content_pass info fs)) child = read_text fs child) /\
  (forall ev, In ev (calls (path_pass info fs)) -> event_path ev <> child).
Proof.
  intros Hdot. split; [|split].
  - intros ev Hin Heq.
    apply content_pass_calls in Hin as (_ & Hvisible & _).
    rewrite Heq in Hvisible. congruence.
  - intros laws. apply content_pass_frame. now left.
  - intros ev Hin Heq.
    apply path_pass_calls in Hin as (_ & Hvisible).
    rewrite Heq in Hvisible. congruence.
Qed.

Lemma hidden_prefix_untouched_witness :
  PyStr.startswith "." ".git/config" = true /\
  (forall ev, In ev (calls (content_pass demo_info demo_tree)) ->
              event_path ev <> ".git/config") /\
  read_text (reached (content_pass demo_info demo_tree)) ".git/config"
  = Ok "name = {user_name}" /\
  (forall ev, In ev (calls (path_pass demo_info demo_tree)) ->
              event_path ev <> ".git/config").
Proof.
  split; [reflexivity|].
  destruct (hidden_prefix_untouched RefFS.tree RefFS.ref_fs demo_info
              demo_tree ".git/config" eq_refl) as (Hcalls & Htext & Hrename).
  split; [exact Hcalls|]. split; [|exact Hrename].
  exact (Htext ref_fs_laws).
Defined.

(** C2, as stated, fails: a hidden directory inside [src] is not skipped;
    the file in it is rewritten by the content pass and renamed by the path
    pass. *)
Lemma nested_hidden_entry_processed :
  has_hidden_segment "src/.hidden/{user_name}.cfg" = true /\
  read_text demo_tree "src/.hidden/{user_name}.cfg" = Ok "{project_name}" /\
  In (EvWrite "src/.hidden/{user_name}.cfg" "demo")
     (calls (content_pass demo_info demo_tree)) /\
  read_text (reached (content_pass demo_info demo_tree))
    "src/.hidden/{user_name}.cfg" = Ok "demo" /\
  In (EvRename "src/.hidden/{user_name}.cfg" "src/.hidden/Jane Doe.cfg")
     (calls (path_pass demo_info demo_tree)).
Proof.
  split; [reflexivity|]. split; [reflexivity|].
  split; [vm_compute; tauto|]. split; [reflexivity|].
  vm_compute; tauto.
Qed.

(** ** The comparison before [rename] *)

(** C3, on the code. [README.md] holds no placeholder, its substituted path
    is the path itself, and [rename] is called on it all the same: the test
    compares a [str] with a [Path], which are never equal. *)
Theorem rename_called_on_unchanged_path :
  PyStr.startswith "." "README.md" = false /\
  update_placeholders "README.md" demo_info = "README.md" /\
  py_ne (VStr "README.md") (VPath "README.md") = true /\
  calls (path_step demo_info "README.md" demo_tree)
  = [EvRename "README.md" "README.md"].
Proof. repeat split. Qed.

(** ** Files with the extension of the script *)




(** ** Self-removal *)

(** C7. [init_repo] ends in one of four ways: the resolution of the
    parameters raises; the content pass raises; the path pass raises; or
    both passes complete and [unlink] is called on the script. In the
    first three the exception is that of [init_repo], which stops in the
    file system the failing step left, and no [unlink] call is made; in
    the last the [unlink] call comes after every call of both passes. *)
Theorem self_destruct_after_both_passes (FS : Type) (fsys : FileSystem FS)
  (env : Env)
  (project_name package_name user_name user_email : option string)
  (fs : FS) :
  match
    resolve_project_info env project_name package_name user_name user_email
  with
  | Raise e =>
      init_repo env project_name package_name user_name user_email fs
      = ([], fs, Raise e)
  | Ok info =>
      match content_pass info fs with
      | (log1, fs1, Raise e) =>
          init_repo env project_name package_name user_name user_email fs
          = (log1, fs1, Raise e) /\
          existsb is_unlink log1 = false
      | (log1, fs1, Ok _) =>
          match path_pass info fs1 with
          | (log2, fs2, Raise e) =>
              init_repo env project_name package_name user_name user_email fs
              = ((log1 ++ log2)%list, fs2, Raise e) /\
              existsb is_unlink (log1 ++ log2)%list = false
          | (log2, fs2, Ok _) =>
              init_repo env project_name package_name user_name user_email fs
              = ((log1 ++ log2 ++ [EvUnlink (script env)])%list,
                 match unlink fs2 (script env) with
                 | Ok fs3 => fs3
                 | Raise _ => fs2
                 end,
                 match unlink fs2 (script env) with
                 | Ok _ => Ok tt
                 | Raise e => Raise e
                 end) /\
              existsb is_unlink (log1 ++ log2)%list = false
          end
      end
  end.
Proof.
  destruct (resolve_project_info env project_name package_name user_name
              user_email) as [info|e] eqn:Hinfo.
  2:{ unfold init_repo, lift, bind. now rewrite Hinfo. }
  pose proof (content_pass_calls info fs) as Hcontent.
  destruct (content_pass info fs) as [[log1 fs1] [u1|e]] eqn:Hpass1;
    unfold calls in Hcontent; cbn [fst] in Hcontent.
  2:{ split.
      - unfold init_repo, lift, bind. rewrite Hinfo. cbn [app].
        now rewrite Hpass1.
      - apply no_unlink. intros ev Hin. now apply Hcontent. }
  pose proof (path_pass_calls info fs1) as Hpath.
  destruct (path_pass info fs1) as [[log2 fs2] [u2|e]] eqn:Hpass2;
    unfold calls in Hpath; cbn [fst] in Hpath.
  all: assert (Hnone : existsb is_unlink (log1 ++ log2)%list = false)
    by (apply no_unlink; intros ev Hin;
        apply in_app_or in Hin as [Hin|Hin];
        [now apply Hcontent | now apply Hpath]).
  all: split; [|exact Hnone].
  all: unfold init_repo, lift, bind; rewrite Hinfo; cbn [app];
    rewrite Hpass1, Hpass2.
  - unfold self_destruct, call.
    destruct (unlink fs2 (script env)); reflexivity.
  - reflexivity.
Qed.

(** A run that completes: the script is gone, and [unlink] was the last
    call. *)
Example init_repo_demo_tree :
  init_repo env_my_project (Some "demo") None None None demo_tree
  = ([EvRead "README.md";
      EvWrite "README.md" "Welcome to demo, by Jane Doe";
      EvRead "src/.hidden/{user_name}.cfg";
      EvWrite "src/.hidden/{user_name}.cfg" "demo";
      EvRename "README.md" "README.md";
      EvRename "init_repo.py" "init_repo.py";
      EvRename "src" "src";
      EvRename "src/.hidden" "src/.hidden";
      EvRename "src/.hidden/{user_name}.cfg" "src/.hidden/Jane Doe.cfg";
      EvRename "src/{package_name}.py" "src/demo.py";
      EvUnlink "init_repo.py"],
     [(".git", RefFS.Dir);
      (".git/config", RefFS.File (Some "name = {user_name}"));
      ("README.md", RefFS.File (Some "Welcome to demo, by Jane Doe"));
      ("src", RefFS.Dir);
      ("src/.hidden", RefFS.Dir);
      ("src/.hidden/Jane Doe.cfg", RefFS.File (Some "demo"));
      ("src/demo.py", RefFS.File (Some "# {project_name}"))],
     Ok tt).
Proof. vm_compute. reflexivity. Qed.

(** A run that stops in the content pass: the file that does not decode
    raises, the files before it are rewritten, the script stays. *)
Example init_repo_binary_tree :
  init_repo env_my_project (Some "demo") None None None binary_tree
  = ([EvRead "README.md"; EvWrite "README.md" "demo"; EvRead "logo.png"],
     [("README.md", RefFS.File (Some "demo"));
      ("logo.png", RefFS.File None);
      ("init_repo.py", RefFS.File (Some "print('{project_name}')"))],
     Raise UnicodeDecodeError).
Proof. vm_compute. reflexivity. Qed.

(** * Further properties of the code *)

(** ** [param_from_git] *)

(** X1. [param_from_git] returns a value only when [git] exits with status
    0 and prints well-formed UTF-8; the value is then the output stripped,
    never [None]. *)
Theorem param_from_git_value (env : Env) (key : string)
  (r : option string) :
  param_from_git env key = Ok r ->
  exists process,
    spawn env ["git"; "config"; "--global"; key] = Some process /\
    returncode process = 0%Z /\
    decode_utf8 (stdout process) = Ok (stdout process) /\
    r = Some (PyStr.strip (stdout process)).
Proof.
  unfold param_from_git, run.
  destruct (spawn env _) as [process|]; [|discriminate].
  destruct (Z.eqb (returncode process) 0) eqn:Hcode; cbn [negb andb];
    [|discriminate].
  rewrite Hcode. unfold decode_utf8.
  destruct (utf8_valid 0 128 191 (stdout process)) eqn:Hvalid;
    [|discriminate].
  intros H. injection H as <-. exists process.
  apply Z.eqb_eq in Hcode. now rewrite Hvalid.
Qed.

Lemma param_from_git_value_witness :
  param_from_git env_my_project "user.name" = Ok (Some "Jane Doe") /\
  exists process,
    spawn env_my_project ["git"; "config"; "--global"; "user.name"]
    = Some process /\
    returncode process = 0%Z /\
    decode_utf8 (stdout process) = Ok (stdout process) /\
    Some "Jane Doe" = Some (PyStr.strip (stdout process)).
Proof.
  split; [reflexivity|].
  exact (param_from_git_value env_my_project "user.name" (Some "Jane Doe")
           eq_refl).
Defined.

Lemma lstrip_head (s : string) :
  PyStr.lstrip s = ""
  \/ exists c r, PyStr.lstrip s = String c r /\ PyStr.isspace c = false.
Proof.
  induction s as [|c s IH]; cbn [PyStr.lstrip]; [now left|].
  destruct (PyStr.isspace c) eqn:Hc; [exact IH|].
  right. now exists c, s.
Qed.

Lemma rstrip_head (c : ascii) (r : string) :
  PyStr.isspace c = false ->
  exists r', PyStr.rstrip (String c r) = String c r'.
Proof.
  intros Hc. cbn [PyStr.rstrip]. rewrite Hc.
  destruct (PyStr.rstrip r); eauto.
Qed.

Lemma rstrip_last (s r : string) (c : ascii) :
  PyStr.rstrip s = r ++ String c "" -> PyStr.isspace c = false.
Proof.
  revert r; induction s as [|d s IH]; intros r; cbn [PyStr.rstrip].
  - destruct r; discriminate.
  - destruct (PyStr.rstrip s) as [|e x] eqn:Hs.
    + destruct (PyStr.isspace d) eqn:Hd.
      * destruct r; discriminate.
      * destruct r as [|d' r]; cbn [append]; intros H.
        -- now injection H as <-.
        -- injection H as _ H. destruct r; discriminate.
    + destruct r as [|d' r]; cbn [append]; intros H; [discriminate|].
      injection H as _ H. exact (IH r H).
Qed.

Lemma is_ascii_lstrip (s : string) :
  PyStr.is_ascii s = true -> PyStr.is_ascii (PyStr.lstrip s) = true.
Proof.
  induction s as [|c s IH]; cbn [PyStr.lstrip PyStr.is_ascii]; [trivial|].
  intros H. destruct (PyStr.isspace c); [|exact H].
  apply andb_true_iff in H as [_ H]. now apply IH.
Qed.

Lemma is_ascii_rstrip (s : string) :
  PyStr.is_ascii s = true -> PyStr.is_ascii (PyStr.rstrip s) = true.
Proof.
  induction s as [|c s IH]; cbn [PyStr.rstrip PyStr.is_ascii]; [trivial|].
  intros H. apply andb_true_iff in H as [Hc Hs]. specialize (IH Hs).
  destruct (PyStr.rstrip s) as [|e x].
  - destruct (PyStr.isspace c); cbn [PyStr.is_ascii]; [reflexivity|].
    now rewrite Hc.
  - cbn [PyStr.is_ascii] in *. now rewrite Hc, IH.
Qed.

(** X2. When [git] prints ASCII text, the value [param_from_git] returns
    is ASCII text that neither starts nor ends with a white space
    character. *)
Theorem param_from_git_stripped (env : Env) (key value : string)
  (process : CompletedProcess) :
  spawn env ["git"; "config"; "--global"; key] = Some process ->
  PyStr.is_ascii (stdout process) = true ->
  param_from_git env key = Ok (Some value) ->
  PyStr.is_ascii value = true /\
  (forall c r, value = String c r -> PyStr.isspace c = false) /\
  (forall r c, value = r ++ String c "" -> PyStr.isspace c = false).
Proof.
  intros Hspawn Hascii. unfold param_from_git, run. rewrite Hspawn.
  destruct (Z.eqb (returncode process) 0) eqn:Hcode; cbn [negb andb];
    [|discriminate].
  rewrite Hcode. unfold decode_utf8.
  destruct (utf8_valid 0 128 191 (stdout process)); [|discriminate].
  intros H. injection H as <-. split; [|split].
  - unfold PyStr.strip. now apply is_ascii_rstrip, is_ascii_lstrip.
  - intros c r H. unfold PyStr.strip in H.
    destruct (lstrip_head (stdout process)) as [E|(d & x & E & Hd)];
      rewrite E in H.
    + discriminate.
    + destruct (rstrip_head d x Hd) as [x' E']. rewrite E' in H.
      now injection H as <- _.
  - intros r c H. unfold PyStr.strip in H. exact (rstrip_last _ _ _ H).
Qed.

Lemma param_from_git_stripped_witness :
  PyStr.is_ascii "jane@example.org" = true /\
  (forall c r, "jane@example.org" = String c r -> PyStr.isspace c = false)
  /\
  (forall r c, "jane@example.org" = r ++ String c "" ->
               PyStr.isspace c = false).
Proof.
  exact (param_from_git_stripped env_my_project "user.email"
           "jane@example.org"
           {| returncode := 0; stdout := "jane@example.org
" |} eq_refl eq_refl eq_refl).
Defined.

(** ** Parameter resolution in [init_repo] and [main] *)

(** X3. The two identity lookups run whatever the arguments are: when one
    of them raises, [init_repo] raises the same exception, also with
    [user_name] and [user_email] given, and so does [main]; no call is made
    on the file system. *)
Theorem lookups_run_despite_overrides (FS : Type) (fsys : FileSystem FS)
  (env : Env)
  (project_name package_name user_name user_email : option string)
  (fs : FS) (e : exn) :
  param_from_git env "user.name" = Raise e
  \/ ((exists v, param_from_git env "user.name" = Ok v)
      /\ param_from_git env "user.email" = Raise e) ->
  init_repo env project_name package_name user_name user_email fs
  = ([], fs, Raise e) /\
  main env fs = ([], fs, Raise e).
Proof.
  intros Hlookup.
  assert (Hres : forall pn pk un ue,
            resolve_project_info env pn pk un ue = Raise e).
  { intros pn pk un ue. unfold resolve_project_info.
    rewrite resolve_names_ok. unfold resolve_identity.
    destruct Hlookup as [Hname|[[v Hname] Hemail]]; rewrite Hname;
      [reflexivity|]. now rewrite Hemail. }
  split; unfold main, init_repo, lift, bind; now rewrite Hres.
Qed.

Lemma lookups_run_despite_overrides_witness :
  init_repo env_no_email None None (Some "Jane Doe")
    (Some "jane@example.org") demo_tree
  = ([], demo_tree, Raise (CalledProcessError 1)) /\
  main env_no_email demo_tree = ([], demo_tree, Raise (CalledProcessError 1)).
Proof.
  apply (lookups_run_despite_overrides RefFS.tree RefFS.ref_fs env_no_email
           None None (Some "Jane Doe") (Some "jane@example.org") demo_tree
           (CalledProcessError 1)).
  right. split; [now exists (Some "Jane Doe") | reflexivity].
Defined.

(** X4. The resolution of the parameters completes exactly when both
    lookups return a value, and the project information is then: the
    arguments that are given, as they are given; the working directory name
    in lower case; the project name with [_] for [-]; the answers of
    [git]. The literals ["First Last"] and ["name @ email.com"] are never
    used. *)
Theorem resolve_project_info_value (env : Env)
  (project_name package_name user_name user_email : option string)
  (info : ProjectInfo) :
  resolve_project_info env project_name package_name user_name user_email
  = Ok info
  <->
  exists git_name git_email,
    param_from_git env "user.name" = Ok (Some git_name) /\
    param_from_git env "user.email" = Ok (Some git_email) /\
    info =
      [("project_name",
        if_none_else project_name (PyStr.lower (PyPath.name (cwd env))));
       ("package_name",
        if_none_else package_name
          (PyStr.replace "-" "_"
             (if_none_else project_name
                (PyStr.lower (PyPath.name (cwd env))))));
       ("user_name", if_none_else user_name git_name);
       ("user_email", if_none_else user_email git_email)].
Proof.
  unfold resolve_project_info. rewrite resolve_names_ok.
  unfold resolve_identity. split.
  - pose proof (param_from_git_not_none env "user.name") as Hname.
    pose proof (param_from_git_not_none env "user.email") as Hemail.
    destruct (param_from_git env "user.name") as [[git_name|]|e];
      [|congruence|discriminate].
    destruct (param_from_git env "user.email") as [[git_email|]|e];
      [|congruence|discriminate].
    intros H. injection H as <-. now exists git_name, git_email.
  - intros (git_name & git_email & -> & -> & ->). reflexivity.
Qed.

Lemma resolve_project_info_value_witness :
  resolve_project_info env_my_project (Some "My-Tool") None None
    (Some "me@example.org")
  = Ok [("project_name", "My-Tool"); ("package_name", "My_Tool");
        ("user_name", "Jane Doe"); ("user_email", "me@example.org")].
Proof.
  apply (proj2 (resolve_project_info_value env_my_project (Some "My-Tool")
                  None None (Some "me@example.org") _)).
  exists "Jane Doe", "jane@example.org". repeat split.
Defined.

Lemma replace_dash_cons (c : ascii) (s : string) :
  PyStr.replace "-" "_" (String c s)
  = String (if Ascii.eqb "-" c then "_"%char else c)
      (PyStr.replace "-" "_" s).
Proof.
  unfold PyStr.replace. cbn [PyStr.replace_from].
  rewrite startswith_cons, startswith_nil, andb_true_r.
  destruct (Ascii.eqb "-" c); reflexivity.
Qed.

Lemma replace_dash_spec (s : string) :
  PyStr.has_char "-" (PyStr.replace "-" "_" s) = false /\
  String.length (PyStr.replace "-" "_" s) = String.length s /\
  (PyStr.has_char "-" s = false -> PyStr.replace "-" "_" s = s).
Proof.
  induction s as [|c s (IH1 & IH2 & IH3)]; [now repeat split|].
  rewrite replace_dash_cons. cbn [PyStr.has_char String.length].
  rewrite IH1, IH2. repeat split.
  - destruct (Ascii.eqb "-" c) eqn:Hc; [reflexivity|]. now rewrite Hc.
  - intros H. apply orb_false_iff in H as [Hc Hs].
    rewrite Hc. now rewrite IH3.
Qed.

(** X5. Without a [package_name] argument, the package name holds no [-],
    has the length of the project name, and is the project name itself
    when that holds no [-]; this for a given project name as for the
    default one. *)
Theorem default_package_name_no_hyphen (env : Env)
  (project_name : option string) :
  exists names project package,
    resolve_names env project_name None = Ok names /\
    dict_get names "project_name" = Ok project /\
    dict_get names "package_name" = Ok package /\
    PyStr.has_char "-" package = false /\
    String.length package = String.length project /\
    (PyStr.has_char "-" project = false -> package = project).
Proof.
  eexists _, _, _. split; [apply resolve_names_ok|].
  split; [reflexivity|]. split; [reflexivity|]. cbn [if_none_else].
  apply replace_dash_spec.
Qed.

Lemma lower_char_not_upper (c : ascii) :
  PyStr.is_upper (PyStr.lower_char c) = false.
Proof. destruct c as [[] [] [] [] [] [] [] []]; reflexivity. Qed.

Lemma lower_spec (s : string) :
  (forall c, PyStr.has_char c (PyStr.lower s) = true ->
             PyStr.is_upper c = false) /\
  String.length (PyStr.lower s) = String.length s /\
  PyStr.lower (PyStr.lower s) = PyStr.lower s.
Proof.
  induction s as [|d s (IH1 & IH2 & IH3)]; [repeat split; discriminate|].
  cbn [PyStr.lower PyStr.has_char String.length]. repeat split.
  - intros c H. apply orb_true_iff in H as [H|H].
    + apply Ascii.eqb_eq in H as ->. apply lower_char_not_upper.
    + now apply IH1.
  - now rewrite IH2.
  - rewrite IH3. f_equal. unfold PyStr.lower_char at 1.
    now rewrite lower_char_not_upper.
Qed.

Lemma is_ascii_lower (s : string) :
  PyStr.is_ascii s = true -> PyStr.is_ascii (PyStr.lower s) = true.
Proof.
  induction s as [|c s IH]; cbn [PyStr.lower PyStr.is_ascii]; [trivial|].
  intros H. apply andb_true_iff in H as [Hc Hs]. rewrite (IH Hs), andb_true_r.
  revert Hc. clear. destruct c as [[] [] [] [] [] [] [] []]; trivial.
Qed.

(** X6. Without a [project_name] argument and in a working directory with
    an ASCII name, the project name is ASCII text that holds no upper-case
    letter and has the length of the working directory name. *)
Theorem default_project_name_lowercase (env : Env)
  (package_name : option string) :
  PyStr.is_ascii (PyPath.name (cwd env)) = true ->
  exists names project,
    resolve_names env None package_name = Ok names /\
    dict_get names "project_name" = Ok project /\
    PyStr.is_ascii project = true /\
    (forall c, PyStr.has_char c project = true ->
               PyStr.is_upper c = false) /\
    String.length project = String.length (PyPath.name (cwd env)).
Proof.
  intros Hascii. eexists _, _. split; [apply resolve_names_ok|].
  split; [reflexivity|]. cbn [if_none_else].
  split; [now apply is_ascii_lower|].
  destruct (lower_spec (PyPath.name (cwd env))) as (Hupper & Hlen & _).
  now split.
Qed.

Lemma default_package_name_no_hyphen_witness :
  exists names project package,
    resolve_names env_my_project (Some "My-Tool") None = Ok names /\
    dict_get names "project_name" = Ok project /\
    dict_get names "package_name" = Ok package /\
    PyStr.has_char "-" package = false /\
    String.length package = String.length project /\
    (PyStr.has_char "-" project = false -> package = project).
Proof.
  exact (default_package_name_no_hyphen env_my_project (Some "My-Tool")).
Defined.

Lemma default_project_name_lowercase_witness :
  PyStr.is_ascii (PyPath.name (cwd env_my_project)) = true /\
  exists names project,
    resolve_names env_my_project None None = Ok names /\
    dict_get names "project_name" = Ok project /\
    PyStr.is_ascii project = true /\
    (forall c, PyStr.has_char c project = true ->
               PyStr.is_upper c = false) /\
    String.length project
    = String.length (PyPath.name (cwd env_my_project)).
Proof.
  split; [reflexivity|].
  exact (default_project_name_lowercase env_my_project None eq_refl).
Defined.

(** ** The calls of the two loops *)

Section Loops.

Context {FS : Type} {fsys : FileSystem FS}.

Lemma content_step_write (info : ProjectInfo) (child : string) (fs : FS)
  (path data : string) :
  In (EvWrite path data) (calls (content_step info child fs)) ->
  path = child /\
  is_file fs child = true /\
  exists text,
    read_text fs child = Ok text /\ data = update_placeholders text info.
Proof.
  unfold content_step.
  destruct (PyStr.startswith "." child); cbn [negb]; [intros []|].
  unfold bind at 1, query at 1.
  destruct (is_file fs child); cbn [andb]; [|intros []].
  destruct (negb (String.eqb (PyPath.suffix child) ".py")); [|intros []].
  unfold update_file, bind, query, call, calls.
  destruct (read_text fs child) as [text|e]; cbn [fst].
  - destruct (write_text fs child (update_placeholders text info));
      cbn [fst app In]; intros [H|[H|[]]]; try discriminate;
      injection H as <- <-; repeat split; now exists text.
  - cbn [In]. intros [H|[]]. discriminate.
Qed.

Lemma content_step_kinds (info : ProjectInfo) (child : string) (fs : FS)
  (ev : event) :
  In ev (calls (content_step info child fs)) ->
  ev = EvRead child \/ exists data, ev = EvWrite child data.
Proof.
  unfold content_step.
  destruct (PyStr.startswith "." child); cbn [negb]; [intros []|].
  unfold bind at 1, query at 1.
  destruct (is_file fs child); cbn [andb]; [|intros []].
  destruct (negb (String.eqb (PyPath.suffix child) ".py")); [|intros []].
  unfold update_file, bind, query, call, calls.
  destruct (read_text fs child) as [text|e]; cbn [fst].
  - destruct (write_text fs child (update_placeholders text info));
      cbn [fst app In]; intros [<-|[<-|[]]]; eauto.
  - cbn [In]. intros [<-|[]]. now left.
Qed.

(** A loop on a list in two parts runs the second part where the first
    one stops. *)
Lemma for_each_app (body : string -> M unit) (pre post : list string)
  (fs fs1 : FS) (log1 : list event) :
  for_each pre body fs = (log1, fs1, Ok tt) ->
  for_each (pre ++ post)%list body fs
  = (let '(log2, fs2, r) := for_each post body fs1 in
     ((log1 ++ log2)%list, fs2, r)).
Proof.
  revert fs log1; induction pre as [|c pre IH]; intros fs log1 Hpre.
  - cbn [for_each ret] in Hpre. injection Hpre as <- <-.
    cbn [app]. now destruct (for_each post body fs) as [[l f] r].
  - cbn [for_each app] in *. unfold bind in *.
    destruct (body c fs) as [[l0 fs0] [u|e]]; [|discriminate].
    destruct (for_each pre body fs0) as [[l1 f1] r1] eqn:Hrest.
    injection Hpre as <- <- ->.
    rewrite (IH fs0 l1 Hrest).
    destruct (for_each post body f1) as [[l2 f2] r2].
    now rewrite app_assoc.
Qed.

End Loops.

(** X8. Every call of the path pass is a [rename], from a path to the
    path [update_placeholders] gives for it: the pass reads, writes and
    deletes nothing, and moves an entry nowhere else. *)
Theorem path_pass_only_renames (FS : Type) (fsys : FileSystem FS)
  (info : ProjectInfo) (fs : FS) (ev : event) :
  In ev (calls (path_pass info fs)) ->
  ev = EvRename (event_path ev) (update_placeholders (event_path ev) info).
Proof.
  unfold path_pass. intros Hin.
  apply calls_bind in Hin as [[]|(children & fs' & Hin)].
  apply for_each_calls in Hin as (child & fs'' & _ & Hin).
  apply path_step_calls in Hin as [-> _]. reflexivity.
Qed.

Lemma path_pass_only_renames_witness :
  In (EvRename "src/{package_name}.py" "src/demo.py")
     (calls (path_pass demo_info demo_tree)) /\
  EvRename "src/{package_name}.py" "src/demo.py"
  = EvRename "src/{package_name}.py"
      (update_placeholders "src/{package_name}.py" demo_info).
Proof.
  assert (Hin : In (EvRename "src/{package_name}.py" "src/demo.py")
                   (calls (path_pass demo_info demo_tree)))
    by (vm_compute; tauto).
  split; [exact Hin|].
  exact (path_pass_only_renames RefFS.tree RefFS.ref_fs demo_info demo_tree
           _ Hin).
Defined.

(** X9. On a path that holds no token of the project information, the
    only call the path pass makes is the renaming of the path to itself. *)
Theorem path_pass_token_free_path (FS : Type) (fsys : FileSystem FS)
  (info : ProjectInfo) (fs : FS) (ev : event) :
  In ev (calls (path_pass info fs)) ->
  (forall key value, In (key, value) info ->
     ~ occurs (token key) (event_path ev)) ->
  ev = EvRename (event_path ev) (event_path ev).
Proof.
  unfold path_pass. intros Hin Hfree.
  apply calls_bind in Hin as [[]|(children & fs' & Hin)].
  apply for_each_calls in Hin as (child & fs'' & _ & Hin).
  apply path_step_calls in Hin as [-> _]. cbn [event_path] in *.
  f_equal. apply update_placeholders_fixed, Forall_forall.
  intros [key value] Hkv. cbn [fst].
  apply not_occurs_contains. exact (Hfree key value Hkv).
Qed.

Lemma path_pass_token_free_path_witness :
  In (EvRename "README.md" "README.md")
     (calls (path_pass demo_info demo_tree)) /\
  (forall key value, In (key, value) demo_info ->
     ~ occurs (token key) "README.md") /\
  EvRename "README.md" "README.md" = EvRename "README.md" "README.md".
Proof.
  assert (Hin : In (EvRename "README.md" "README.md")
                   (calls (path_pass demo_info demo_tree)))
    by (vm_compute; tauto).
  assert (Hfree : forall key value, In (key, value) demo_info ->
                    ~ occurs (token key) "README.md").
  { intros key value Hkv. cbn [demo_info In] in Hkv. each_binding Hkv. }
  split; [exact Hin|]. split; [exact Hfree|].
  exact (path_pass_token_free_path RefFS.tree RefFS.ref_fs demo_info
           demo_tree _ Hin Hfree).
Defined.

(** X10. Every call of the first loop is a read or a write, and a write
    to a path is made when the loop reaches that path in its list: the
    entries before it have been processed without error, the path is then
    a regular file, and what is written is [update_placeholders] of the
    text the path holds in the file system those entries left. *)
Theorem content_loop_writes (FS : Type) (fsys : FileSystem FS)
  (info : ProjectInfo) (children : list string) (fs : FS) (ev : event) :
  In ev (calls (for_each children (content_step info) fs)) ->
  ev = EvRead (event_path ev)
  \/ exists pre post log0 (fs0 : FS) text,
       children = (pre ++ event_path ev :: post)%list /\
       for_each pre (content_step info) fs = (log0, fs0, Ok tt) /\
       is_file fs0 (event_path ev) = true /\
       read_text fs0 (event_path ev) = Ok text /\
       ev = EvWrite (event_path ev) (update_placeholders text info).
Proof.
  revert fs; induction children as [|child rest IH]; intros fs;
    cbn [for_each]; [intros []|].
  intros Hin. unfold bind, calls in Hin.
  destruct (content_step info child fs) as [[l1 fs1] r1] eqn:Hstep.
  assert (Hhere : In ev l1 ->
            ev = EvRead (event_path ev)
            \/ exists pre post log0 (fs0 : FS) text,
                 (child :: rest) = (pre ++ event_path ev :: post)%list /\
                 for_each pre (content_step info) fs = (log0, fs0, Ok tt) /\
                 is_file fs0 (event_path ev) = true /\
                 read_text fs0 (event_path ev) = Ok text /\
                 ev = EvWrite (event_path ev)
                        (update_placeholders text info)).
  { intros Hl1.
    assert (Hcalls : In ev (calls (content_step info child fs)))
      by (unfold calls; now rewrite Hstep).
    destruct (content_step_kinds info child fs ev Hcalls) as [->|[data ->]];
      [now left|].
    right. apply content_step_write in Hcalls
      as (_ & Hfile & text & Hread & ->).
    exists [], rest, [], fs, text. cbn [event_path app for_each ret].
    now repeat split. }
  destruct r1 as [u|e]; [|exact (Hhere Hin)].
  destruct (for_each rest (content_step info) fs1) as [[l2 fs2] r2] eqn:Hrest.
  cbn [fst] in Hin. apply in_app_or in Hin as [Hin|Hin]; [exact (Hhere Hin)|].
  assert (Hcalls : In ev (calls (for_each rest (content_step info) fs1)))
    by (unfold calls; now rewrite Hrest).
  destruct (IH fs1 Hcalls)
    as [Hread|(pre & post & log0 & fs0 & text & Hlist & Hpre & Hrem)];
    [now left|].
  right. exists (child :: pre), post, (l1 ++ log0)%list, fs0, text.
  split; [cbn [app]; now rewrite Hlist|]. split; [|exact Hrem].
  cbn [for_each]. unfold bind. destruct u. now rewrite Hstep, Hpre.
Qed.

Lemma content_loop_writes_witness :
  In (EvWrite "README.md" "Welcome to demo, by Jane Doe")
     (calls (for_each (rglob demo_tree) (content_step demo_info) demo_tree))
  /\
  (EvWrite "README.md" "Welcome to demo, by Jane Doe" = EvRead "README.md"
   \/ exists pre post log0 (fs0 : RefFS.tree) text,
        rglob demo_tree = (pre ++ "README.md" :: post)%list /\
        for_each pre (content_step demo_info) demo_tree
        = (log0, fs0, Ok tt) /\
        is_file fs0 "README.md" = true /\
        read_text fs0 "README.md" = Ok text /\
        EvWrite "README.md" "Welcome to demo, by Jane Doe"
        = EvWrite "README.md" (update_placeholders text demo_info)).
Proof.
  assert (Hin : In (EvWrite "README.md" "Welcome to demo, by Jane Doe")
                   (calls (for_each (rglob demo_tree)
                             (content_step demo_info) demo_tree)))
    by (vm_compute; tauto).
  split; [exact Hin|].
  exact (content_loop_writes RefFS.tree RefFS.ref_fs demo_info
           (rglob demo_tree) demo_tree _ Hin).
Defined.

(** X11. The first loop stops at the first selected file that cannot be
    read: the exception is that of the loop, the files before it stay
    rewritten, and no call is made on the entries after it. *)
Theorem content_loop_stops_at_unreadable (FS : Type) (fsys : FileSystem FS)
  (info : ProjectInfo) (pre post : list string) (child : string)
  (fs fs1 : FS) (log1 : list event) (e : exn) :
  for_each pre (content_step info) fs = (log1, fs1, Ok tt) ->
  PyStr.startswith "." child = false ->
  is_file fs1 child = true ->
  PyPath.suffix child <> ".py" ->
  read_text fs1 child = Raise e ->
  for_each (pre ++ child :: post)%list (content_step info) fs
  = ((log1 ++ [EvRead child])%list, fs1, Raise e).
Proof.
  intros Hpre Hdot Hfile Hpy Hread.
  rewrite (for_each_app _ _ _ _ _ _ Hpre).
  cbn [for_each]. unfold bind at 1, content_step at 1.
  rewrite Hdot. cbn [negb]. unfold bind at 1, query at 1.
  rewrite Hfile. apply String.eqb_neq in Hpy. rewrite Hpy. cbn [negb andb].
  unfold update_file, bind, query. rewrite Hread. reflexivity.
Qed.

Lemma content_loop_stops_at_unreadable_witness :
  for_each ["README.md"; "logo.png"; "init_repo.py"]
    (content_step demo_info) binary_tree
  = ([EvRead "README.md"; EvWrite "README.md" "demo"; EvRead "logo.png"],
     [("README.md", RefFS.File (Some "demo"));
      ("logo.png", RefFS.File None);
      ("init_repo.py", RefFS.File (Some "print('{project_name}')"))],
     Raise UnicodeDecodeError).
Proof.
  apply (content_loop_stops_at_unreadable RefFS.tree RefFS.ref_fs demo_info
           ["README.md"] ["init_repo.py"] "logo.png" binary_tree
           [("README.md", RefFS.File (Some "demo"));
            ("logo.png", RefFS.File None);
            ("init_repo.py", RefFS.File (Some "print('{project_name}')"))]
           [EvRead "README.md"; EvWrite "README.md" "demo"]
           UnicodeDecodeError).
  - reflexivity.
  - reflexivity.
  - reflexivity.
  - vm_compute. discriminate.
  - reflexivity.
Defined.

(** ** [update_placeholders] on whole dictionaries *)

(** X12. Substituting with a dictionary made of two parts is substituting
    with the first part, then with the second. *)
Theorem update_placeholders_app (s : string) (p q : ProjectInfo) :
  update_placeholders s (p ++ q)%list
  = update_placeholders (update_placeholders s p) q.
Proof.
  revert s; induction p as [|[key value] p IH]; intros s;
    cbn [app update_placeholders]; [reflexivity | apply IH].
Qed.

Lemma token_has_close (key s : string) :
  PyStr.startswith (token key) s = true -> PyStr.has_char "}" s = true.
Proof.
  intros H. apply startswith_iff in H as [b ->].
  unfold token. rewrite !has_char_append. cbn [PyStr.has_char].
  rewrite Ascii.eqb_refl. cbn [orb]. now rewrite !orb_true_r.
Qed.

Lemma contains_token_has_close (key s : string) :
  PyStr.has_char "}" s = false -> PyStr.contains (token key) s = false.
Proof.
  induction s as [|c s IH]; intros H; cbn [PyStr.contains].
  - destruct (PyStr.startswith (token key) "") eqn:E; [|reflexivity].
    apply token_has_close in E. congruence.
  - destruct (PyStr.startswith (token key) (String c s)) eqn:E.
    + apply token_has_close in E. congruence.
    + cbn [orb]. apply IH. cbn [PyStr.has_char] in H.
      now apply orb_false_iff in H as [_ H].
Qed.

(** X13. A string in which one of the two braces does not occur, the empty
    string among them, is left as it is, whatever the dictionary. *)
Theorem update_placeholders_without_brace (s : string) (p : ProjectInfo) :
  PyStr.has_char "{" s = false \/ PyStr.has_char "}" s = false ->
  update_placeholders s p = s.
Proof.
  intros H. apply update_placeholders_fixed, Forall_forall. intros kv _.
  destruct H as [H|H];
    [now apply contains_token_has_open | now apply contains_token_has_close].
Qed.

Lemma update_placeholders_without_brace_witness :
  update_placeholders "name} and project_name} closed, never opened"
    demo_info
  = "name} and project_name} closed, never opened".
Proof.
  apply update_placeholders_without_brace. left. reflexivity.
Defined.

Lemma dict_get_in (p : ProjectInfo) (key value : string) :
  dict_get p key = Ok value -> In (key, value) p.
Proof.
  induction p as [|[k v] p IH]; cbn [dict_get]; [discriminate|].
  destruct (String.eqb_spec k key) as [->|Hne].
  - intros H. injection H as ->. now left.
  - intros H. right. now apply IH.
Qed.

Lemma dict_get_unique (p : ProjectInfo) (key value : string) :
  NoDup (map fst p) -> In (key, value) p -> dict_get p key = Ok value.
Proof.
  induction p as [|[k v] p IH]; cbn [map fst dict_get]; intros Hnd Hin;
    [destruct Hin|].
  inversion Hnd as [|? ? Hk Hnd']; subst.
  destruct Hin as [Heq|Hin].
  - injection Heq as -> ->. now rewrite String.eqb_refl.
  - destruct (String.eqb_spec k key) as [->|Hne]; [|now apply IH].
    exfalso. apply Hk. change key with (fst (key, value)). now apply in_map.
Qed.

Lemma dict_get_missing (p : ProjectInfo) (key : string) (e : exn) :
  dict_get p key = Raise e -> e = KeyError.
Proof.
  induction p as [|[k v] p IH]; cbn [dict_get]; [congruence|].
  destruct (String.eqb k key); [discriminate | exact IH].
Qed.

(** Two dictionaries with the same bindings, each key bound once, answer
    every lookup alike. *)
Lemma dict_get_permutation (p q : ProjectInfo) (key : string) :
  Permutation p q -> NoDup (map fst p) -> dict_get p key = dict_get q key.
Proof.
  intros Hperm Hp.
  assert (Hq : NoDup (map fst q)).
  { eapply Permutation_NoDup; [|exact Hp]. now apply Permutation_map. }
  destruct (dict_get p key) as [v|e] eqn:Ep;
    destruct (dict_get q key) as [v'|e'] eqn:Eq.
  - apply dict_get_in in Ep. eapply Permutation_in in Ep; [|exact Hperm].
    apply (dict_get_unique q key v Hq) in Ep. congruence.
  - apply dict_get_in in Ep. eapply Permutation_in in Ep; [|exact Hperm].
    apply (dict_get_unique q key v Hq) in Ep. congruence.
  - apply dict_get_in in Eq.
    eapply Permutation_in in Eq; [|apply Permutation_sym; exact Hperm].
    apply (dict_get_unique p key v' Hp) in Eq. congruence.
  - apply dict_get_missing in Ep, Eq. congruence.
Qed.

Lemma filled_permutation (p q : ProjectInfo) (segs : list segment) :
  Permutation p q -> NoDup (map fst p) -> filled p segs = filled q segs.
Proof.
  intros Hperm Hp. induction segs as [|[t|key] segs IH]; cbn [filled].
  - reflexivity.
  - now rewrite IH.
  - rewrite (dict_get_permutation p q key Hperm Hp), IH. reflexivity.
Qed.

(** X14. On a text whose opening braces all start a placeholder with a
    brace-free key, and with brace-free keys bound once to values without
    opening brace, the order of the dictionary does not matter: the loop
    gives the same string for every permutation of the items; placeholders
    of keys the dictionary does not hold stay as they are. *)
Theorem update_placeholders_order (p q : ProjectInfo)
  (segs : list segment) :
  Permutation p q ->
  NoDup (map fst p) ->
  Forall (fun kv => brace_free (fst kv) = true
                    /\ PyStr.has_char "{" (snd kv) = false) p ->
  Forall plain segs ->
  update_placeholders (source segs) p = filled p segs /\
  update_placeholders (source segs) q = update_placeholders (source segs) p.
Proof.
  intros Hperm Hnd Hp Hsegs.
  assert (Hq : Forall (fun kv => brace_free (fst kv) = true
                                 /\ PyStr.has_char "{" (snd kv) = false) q).
  { eapply Permutation_Forall; eassumption. }
  rewrite (update_placeholders_source p segs Hp Hsegs).
  rewrite (update_placeholders_source q segs Hq Hsegs).
  split; [reflexivity|]. symmetry. now apply filled_permutation.
Qed.

Lemma update_placeholders_order_witness :
  update_placeholders "{user_name} wrote {project_name} for {client}"
    demo_info
  = "Jane Doe wrote demo for {client}" /\
  update_placeholders "{user_name} wrote {project_name} for {client}"
    (rev demo_info)
  = update_placeholders "{user_name} wrote {project_name} for {client}"
      demo_info.
Proof.
  apply (update_placeholders_order demo_info (rev demo_info)
           [Placeholder "user_name"; Text " wrote ";
            Placeholder "project_name"; Text " for ";
            Placeholder "client"]).
  - apply Permutation_rev.
  - cbn [demo_info map fst]. repeat constructor; cbn [In];
      intuition discriminate.
  - repeat constructor.
  - repeat constructor.
Defined.

(** ** The second loop and the order of the visit *)

(** On [package_tree] the loop completes when the module is visited under
    the new name of its directory, as the lazy walk does once the directory
    is renamed. *)
Example path_loop_walk_order :
  for_each ["{package_name}"; "demo/{package_name}.py"]
    (path_step demo_info) package_tree
  = ([EvRename "{package_name}" "demo";
      EvRename "demo/{package_name}.py" "demo/demo.py"],
     [("demo", RefFS.Dir); ("demo/demo.py", RefFS.File (Some "# module"))],
     Ok tt).
Proof. vm_compute. reflexivity. Qed.

(** Visited under the paths listed before the loop, the module is no
    longer where the second [rename] looks for it. *)
Example path_loop_listing_order :
  for_each ["{package_name}"; "{package_name}/{package_name}.py"]
    (path_step demo_info) package_tree
  = ([EvRename "{package_name}" "demo";
      EvRename "{package_name}/{package_name}.py" "demo/demo.py"],
     [("demo", RefFS.Dir);
      ("demo/{package_name}.py", RefFS.File (Some "# module"))],
     Raise FileNotFoundError).
Proof. vm_compute. reflexivity. Qed.
